(** * Camoufox REST server: tab registry and accessibility projector

    A shallow embedding of [python/camoufox-server/browser.py]
    (classes [TabState] and [CamofoxBrowserManager]) and the properties of
    its tab/session bookkeeping and of the accessibility-tree projection.

    Conventions of the embedding.
    - A Python [str] is a [string]; [str.lower] is modelled on the ASCII
      range (the roles of an accessibility snapshot are ASCII identifiers).
    - A Python [dict] is an insertion-ordered association list ([PyDict]):
      [d[k] = v] replaces in place when [k] is present and appends
      otherwise, [d.get(k)] is a lookup, [list(d.keys())] is the key list.
    - The objects the code mutates in place ([TabState], the manager) are
      records threaded through the operations; a tab is written back under
      its own key after each mutation, which is what mutation through the
      reference held in [self.tabs] amounts to.
    - Calls into Playwright/Camoufox are recorded in a trace; what they
      do is supplied by the caller of the model: a call returns, raises
      an [Exception], or is cancelled ([asyncio.CancelledError], which an
      [except Exception] clause does not catch and a bare [except] does).
    - The methods run one at a time: the [asyncio.Lock] of [create_tab] is
      not modelled, and neither are the [print] calls. *)

From stdpp Require Import base strings list pretty.
From Stdlib Require Import ZArith Ascii String.

Set Warnings "-register-all".

Local Open Scope string_scope.
Local Open Scope list_scope.

(** ** Python dictionaries *)

Module PyDict.
Section dict.
Context {V : Type}.

Definition dict := list (string * V).

Definition empty : dict := [].

(** [d.get(k)] *)
Fixpoint get (k : string) (d : dict) : option V :=
  match d with
  | [] => None
  | (k', v) :: r => if String.eqb k k' then Some v else get k r
  end.

(** [d[k] = v] *)
Fixpoint set (k : string) (v : V) (d : dict) : dict :=
  match d with
  | [] => [(k, v)]
  | (k', v') :: r =>
      if String.eqb k k' then (k', v) :: r else (k', v') :: set k v r
  end.

(** [list(d.keys())] *)
Definition keys (d : dict) : list string := map fst d.

(** [list(d.items())] *)
Definition items (d : dict) : list (string * V) := d.

(** [d.clear()] *)
Definition clear (d : dict) : dict := [].
End dict.
Arguments dict : clear implicits.
End PyDict.

(** ** Strings *)

(** The character [chr(34)], used by the selector f-string. *)
Definition dquote : string := String "034"%char EmptyString.

Definition lower_ascii (c : ascii) : ascii :=
  let n := N_of_ascii c in
  if ((65 <=? n) && (n <=? 90))%N then ascii_of_N (n + 32) else c.

(** [s.lower()] *)
Fixpoint lower (s : string) : string :=
  match s with
  | EmptyString => EmptyString
  | String c r => String (lower_ascii c) (lower r)
  end.

(** Truth value of an optional string: [None] and the empty string are
    false. *)
Definition truthy (s : option string) : bool :=
  match s with
  | None => false
  | Some EmptyString => false
  | Some (String _ _) => true
  end.

(** ** Accessibility snapshot (input) and projected tree (output) *)

(** A key of the snapshot dictionary: not there, there with value [None],
    or there with a value. *)
Inductive field (A : Type) : Type :=
| Missing
| Null
| Val (a : A).
Arguments Missing {A}.
Arguments Null {A}.
Arguments Val {A} a.

(** [node.get(key)] *)
Definition fget {A} (f : field A) : option A :=
  match f with Val a => Some a | _ => None end.

(** [node.get(key, default)] : the default is used only when the key is
    missing. *)
Definition fget_default {A} (f : field A) (d : A) : option A :=
  match f with Missing => Some d | Null => None | Val a => Some a end.

(** A node of Playwright's accessibility snapshot; a child may be [None]. *)
Inductive node : Type :=
| Node (role : field string) (name : field string)
       (children : field (list (option node))).

Definition node_role (n : node) := let 'Node r _ _ := n in r.
Definition node_name (n : node) := let 'Node _ m _ := n in m.
Definition node_children (n : node) := let 'Node _ _ c := n in c.

(** The dictionary built by [_convert_snapshot]. [o_role] and [o_name] are
    always present (their value may be [None]); [o_elementRef] and
    [o_children] are [None] when the key is not in the dictionary. *)
Inductive out_node : Type :=
| Out (o_role : option string) (o_name : option string)
      (o_elementRef : option string) (o_children : option (list out_node)).

Definition o_role (o : out_node) := let 'Out r _ _ _ := o in r.
Definition o_name (o : out_node) := let 'Out _ m _ _ := o in m.
Definition o_elementRef (o : out_node) := let 'Out _ _ e _ := o in e.
Definition o_children (o : out_node) := let 'Out _ _ _ c := o in c.

(** ** Tab state *)

Definition Page := nat.

Record TabState : Type := mkTab {
  id : string;
  page : Page;
  url : string;
  element_map : PyDict.dict string;
  ref_counter : nat
}.

(** [TabState.__init__] *)
Definition TabState_init (id : string) (page : Page) (url : string) : TabState :=
  mkTab id page url PyDict.empty 0.

(** ** The projector *)

Definition interactive_roles : list string :=
  [ "button"; "link"; "textbox"; "checkbox"; "radio";
    "combobox"; "menuitem"; "tab"; "switch"; "searchbox";
    "navigation"; "menubar"; "menu"; "menuitemcheckbox";
    "menuitemradio"; "option"; "progressbar"; "scrollbar";
    "slider"; "spinbutton"; "tablist"; "tabpanel";
    "heading"; "article"; "section"; "banner"; "complementary";
    "contentinfo"; "form"; "main"; "region"; "search";
    "paragraph"; "listitem"; "img"; "figure" ].

Definition _is_interactive (role : option string) : bool :=
  match role with
  | None => false
  | Some r => bool_decide (lower r ∈ interactive_roles)
  end.

(** [f"e{n}"] *)
Definition eref (n : nat) : string := "e" +:+ pretty n.

(** [f'text="{name}"'] *)
Definition text_selector (name : string) : string :=
  "text=" +:+ dquote +:+ name +:+ dquote.

(** The list comprehension
    [[convert(child, tab) for child in children if child is not None]],
    evaluated left to right on the one tab. *)
Fixpoint convert_children (convert : node -> TabState -> out_node * TabState)
    (children : list (option node)) (tab : TabState)
  : list out_node * TabState :=
  match children with
  | [] => ([], tab)
  | None :: rest => convert_children convert rest tab
  | Some child :: rest =>
      let '(o, tab1) := convert child tab in
      let '(os, tab2) := convert_children convert rest tab1 in
      (o :: os, tab2)
  end.

(** The branch of [_convert_snapshot] that registers an element reference. *)
Definition assign_ref (n : node) (tab : TabState) : option string * TabState :=
  if truthy (fget (node_name n)) && _is_interactive (fget (node_role n)) then
    let counter := S (ref_counter tab) in
    let element_ref := eref counter in
    let selector := text_selector (default EmptyString (fget (node_name n))) in
    (Some element_ref,
     mkTab (id tab) (page tab) (url tab)
           (PyDict.set element_ref selector (element_map tab)) counter)
  else (None, tab).

(** [_convert_snapshot] on a node that is not [None]. *)
Fixpoint convert_node (n : node) (tab : TabState) {struct n}
  : out_node * TabState :=
  match n with
  | Node role name children =>
      let '(ref, tab1) := assign_ref (Node role name children) tab in
      match children with
      | Val (c :: cs) =>
          let '(kids, tab2) := convert_children convert_node (c :: cs) tab1 in
          (Out (fget_default role "generic") (fget name) ref (Some kids), tab2)
      | _ =>
          (Out (fget_default role "generic") (fget name) ref None, tab1)
      end
  end.

(** [_convert_snapshot(node, tab)] *)
Definition _convert_snapshot (n : option node) (tab : TabState)
  : option out_node * TabState :=
  match n with
  | None => (None, tab)
  | Some n => let '(o, tab') := convert_node n tab in (Some o, tab')
  end.

(** ** Exceptions, external calls and the world *)

(** What an f-string of the source is made of, and the exceptions the
    operations raise. [FmtExn e] is [{str(e)}]. [HTTPException] and
    [Exception] are caught by [except Exception]; [CancelledError] is a
    [BaseException] and is not. *)
Inductive exn : Type :=
| HTTPException (status_code : Z) (detail : list piece)
| Exception (msg : string)
| CancelledError
with piece : Type :=
| Lit (s : string)
| Fmt (s : string)
| FmtList (l : list string)
| FmtExn (e : exn).

(** What an awaited call into the browser library does: it returns, it
    raises an exception with a message, or the task is cancelled while it
    waits. *)
Inductive outcome (A : Type) : Type :=
| Returns (a : A)
| Raises (msg : string)
| Cancelled.
Arguments Returns {A} a.
Arguments Raises {A} msg.
Arguments Cancelled {A}.

Definition Browser := nat.
Definition Ctx := nat.

(** The calls into Camoufox and Playwright. *)
Inductive call : Type :=
| CamoufoxEnter (c : Ctx)
| CamoufoxExit (c : Ctx)
| BrowserNewPage (b : Browser)
| PageGoto (p : Page) (url : string)
| PageClose (p : Page)
| PageSnapshot (p : Page)
| PageClick (p : Page) (selector : string)
| PageFill (p : Page) (selector text : string)
| PageScreenshot (p : Page).

(** [CamofoxBrowserManager] *)
Record Manager : Type := mkManager {
  browser : option Browser;
  camoufox_ctx : option Ctx;
  tabs : PyDict.dict TabState;
  session_tabs : PyDict.dict string
}.

(** [CamofoxBrowserManager.__init__] *)
Definition Manager_init : Manager :=
  mkManager None None PyDict.empty PyDict.empty.

(** The manager and the calls made so far, oldest first. *)
Record World : Type := mkWorld {
  manager : Manager;
  calls : list call
}.

Definition World_init : World := mkWorld Manager_init [].

Inductive result (A : Type) : Type :=
| Ok (a : A)
| Error (e : exn).
Arguments Ok {A} a.
Arguments Error {A} e.

(** ** A state and exception monad for the methods *)

Definition M (A : Type) : Type := World -> result A * World.

Definition ret {A} (a : A) : M A := fun w => (Ok a, w).

Definition bind {A B} (m : M A) (k : A -> M B) : M B :=
  fun w =>
    match m w with
    | (Ok a, w') => k a w'
    | (Error e, w') => (Error e, w')
    end.

Definition raise {A} (e : exn) : M A := fun w => (Error e, w).

(** [try: m  except Exception as e: h e] *)
Definition try_except {A} (m : M A) (h : exn -> M A) : M A :=
  fun w =>
    match m w with
    | (Ok a, w') => (Ok a, w')
    | (Error CancelledError, w') => (Error CancelledError, w')
    | (Error e, w') => h e w'
    end.

(** [try: m  except: pass] *)
Definition try_pass (m : M unit) : M unit :=
  fun w =>
    match m w with
    | (Ok a, w') => (Ok a, w')
    | (Error _, w') => (Ok tt, w')
    end.

Definition get_manager : M Manager := fun w => (Ok (manager w), w).

Definition put_manager (m : Manager) : M unit :=
  fun w => (Ok tt, mkWorld m (calls w)).

(** An awaited call into the browser library. *)
Definition await {A} (c : call) (o : outcome A) : M A :=
  fun w =>
    let w' := mkWorld (manager w) (calls w ++ [c]) in
    match o with
    | Returns a => (Ok a, w')
    | Raises msg => (Error (Exception msg), w')
    | Cancelled => (Error CancelledError, w')
    end.

Declare Scope monad_scope.
Delimit Scope monad_scope with monad.
Notation "x <- m ;; k" := (bind m (fun x => k))
  (at level 90, m at level 89, k at level 90, right associativity)
  : monad_scope.
Notation "m ;;; k" := (bind m (fun _ => k))
  (at level 90, k at level 90, right associativity) : monad_scope.
Local Open Scope monad_scope.

(** Field updates of the manager. *)
Definition set_browser (b : option Browser) (m : Manager) : Manager :=
  mkManager b (camoufox_ctx m) (tabs m) (session_tabs m).
Definition set_camoufox_ctx (c : option Ctx) (m : Manager) : Manager :=
  mkManager (browser m) c (tabs m) (session_tabs m).
Definition set_tabs (t : PyDict.dict TabState) (m : Manager) : Manager :=
  mkManager (browser m) (camoufox_ctx m) t (session_tabs m).
Definition set_session_tabs (s : PyDict.dict string) (m : Manager) : Manager :=
  mkManager (browser m) (camoufox_ctx m) (tabs m) s.

Definition modify (f : Manager -> Manager) : M unit :=
  m <- get_manager ;; put_manager (f m).

(** A mutation of the tab object held under [tab_id]. *)
Definition store_tab (tab_id : string) (tab : TabState) : M unit :=
  modify (fun m => set_tabs (PyDict.set tab_id tab (tabs m)) m).

(** ** The methods of [CamofoxBrowserManager] *)

(** What the environment answers during one [create_tab]. *)
Record create_env : Type := mkCreateEnv {
  env_ctx : Ctx;
  env_launch : outcome Browser;
  env_uuid : string;
  env_new_page : outcome Page;
  env_goto : outcome unit;
  env_close : outcome unit
}.

Definition _ensure_browser (ctx : Ctx) (launch : outcome Browser) : M unit :=
  m <- get_manager ;;
  match browser m with
  | Some _ => ret tt
  | None =>
      modify (set_camoufox_ctx (Some ctx)) ;;;
      b <- await (CamoufoxEnter ctx) launch ;;
      modify (set_browser (Some b))
  end.

Definition create_tab (user_id session_key url : string) (env : create_env)
  : M TabState :=
  _ensure_browser (env_ctx env) (env_launch env) ;;;
  let tab_id := env_uuid env in
  m <- get_manager ;;
  match browser m with
  | None => raise (Exception "'NoneType' object has no attribute 'new_page'")
  | Some b =>
      page <- await (BrowserNewPage b) (env_new_page env) ;;
      try_except (await (PageGoto page url) (env_goto env))
        (fun e =>
           await (PageClose page) (env_close env) ;;;
           raise (HTTPException 500 [Lit "Navigation failed: "; FmtExn e])) ;;;
      let tab := TabState_init tab_id page url in
      modify (fun m => set_tabs (PyDict.set tab_id tab (tabs m)) m) ;;;
      modify (fun m =>
                set_session_tabs
                  (PyDict.set session_key tab_id (session_tabs m)) m) ;;;
      ret tab
  end.

Definition _get_tab (tab_id user_id : string) : M TabState :=
  m <- get_manager ;;
  match PyDict.get tab_id (tabs m) with
  | Some tab => ret tab
  | None =>
      let available_tabs := PyDict.keys (tabs m) in
      raise (HTTPException 404
               [Lit "Tab not found: "; Fmt tab_id;
                Lit ". Available tabs: "; FmtList available_tabs])
  end.

Definition get_active_tab_for_session (session_key : string) (m : Manager)
  : option string :=
  PyDict.get session_key (session_tabs m).

Definition get_accessibility_tree (tab_id user_id : string)
    (snap : outcome (option node)) : M (option out_node) :=
  tab <- _get_tab tab_id user_id ;;
  try_except
    (snapshot <- await (PageSnapshot (page tab)) snap ;;
     match snapshot with
     | None =>
         raise (HTTPException 500 [Lit "Failed to get accessibility snapshot"])
     | Some _ =>
         let '(tree, tab') := _convert_snapshot snapshot tab in
         store_tab tab_id tab' ;;;
         ret tree
     end)
    (fun e =>
       raise (HTTPException 500
                [Lit "Failed to get accessibility tree: "; FmtExn e])).

Definition click (tab_id user_id element_ref : string) (o : outcome unit)
  : M unit :=
  tab <- _get_tab tab_id user_id ;;
  match PyDict.get element_ref (element_map tab) with
  | Some (String c s) =>
      let selector := String c s in
      try_except (await (PageClick (page tab) selector) o)
        (fun e => raise (HTTPException 500 [Lit "Click failed: "; FmtExn e]))
  | _ =>
      raise (HTTPException 400
               [Lit "Unknown element ref: "; Fmt element_ref;
                Lit ". Available refs: ";
                FmtList (PyDict.keys (element_map tab))])
  end.

Definition type_text (tab_id user_id element_ref text : string)
    (o : outcome unit) : M unit :=
  tab <- _get_tab tab_id user_id ;;
  match PyDict.get element_ref (element_map tab) with
  | Some (String c s) =>
      let selector := String c s in
      try_except (await (PageFill (page tab) selector text) o)
        (fun e => raise (HTTPException 500 [Lit "Type failed: "; FmtExn e]))
  | _ =>
      raise (HTTPException 400 [Lit "Unknown element ref: "; Fmt element_ref])
  end.

Definition navigate (tab_id user_id url : string) (o : outcome unit)
  : M unit :=
  tab <- _get_tab tab_id user_id ;;
  try_except
    (await (PageGoto (page tab) url) o ;;;
     store_tab tab_id
       (mkTab (id tab) (page tab) url (PyDict.clear (element_map tab)) 0))
    (fun e => raise (HTTPException 500 [Lit "Navigation failed: "; FmtExn e])).

(** The text [base64.b64encode(raw).decode("utf-8")]. *)
Inductive base64 : Type :=
| b64encode (raw : list Byte.byte).

Definition screenshot (tab_id user_id : string) (o : outcome (list Byte.byte))
  : M base64 :=
  tab <- _get_tab tab_id user_id ;;
  try_except
    (screenshot_bytes <- await (PageScreenshot (page tab)) o ;;
     ret (b64encode screenshot_bytes))
    (fun e => raise (HTTPException 500 [Lit "Screenshot failed: "; FmtExn e])).

(** [try: await tab.page.close()  except: pass], for each tab in turn. *)
Fixpoint close_all (items : list (string * TabState))
    (close : string -> outcome unit) : M unit :=
  match items with
  | [] => ret tt
  | (tab_id, tab) :: rest =>
      try_pass (await (PageClose (page tab)) (close tab_id)) ;;;
      close_all rest close
  end.

Definition cleanup (close : string -> outcome unit) (aexit : outcome unit)
  : M unit :=
  m <- get_manager ;;
  close_all (PyDict.items (tabs m)) close ;;;
  modify (fun m => set_tabs (PyDict.clear (tabs m)) m) ;;;
  m <- get_manager ;;
  match camoufox_ctx m with
  | Some ctx =>
      try_pass (await (CamoufoxExit ctx) aexit) ;;;
      modify (set_camoufox_ctx None) ;;;
      modify (set_browser None)
  | None => ret tt
  end.

(** ** Sequences of registry operations *)

Inductive op : Type :=
| OpCreateTab (user_id session_key url : string) (env : create_env)
| OpSnapshot (tab_id user_id : string) (snap : outcome (option node))
| OpClick (tab_id user_id element_ref : string) (o : outcome unit)
| OpTypeText (tab_id user_id element_ref text : string) (o : outcome unit)
| OpNavigate (tab_id user_id url : string) (o : outcome unit)
| OpScreenshot (tab_id user_id : string) (o : outcome (list Byte.byte))
| OpCleanup (close : string -> outcome unit) (aexit : outcome unit).

(** The world after an operation, whether it returned or raised. *)
Definition run_op (o : op) (w : World) : World :=
  match o with
  | OpCreateTab u k url env => snd (create_tab u k url env w)
  | OpSnapshot t u snap => snd (get_accessibility_tree t u snap w)
  | OpClick t u r o => snd (click t u r o w)
  | OpTypeText t u r x o => snd (type_text t u r x o w)
  | OpNavigate t u url o => snd (navigate t u url o w)
  | OpScreenshot t u o => snd (screenshot t u o w)
  | OpCleanup close aexit => snd (cleanup close aexit w)
  end.

Definition run_ops (os : list op) (w : World) : World :=
  fold_left (fun w o => run_op o w) os w.

(** The states the registry can be in. *)
Definition reachable (w : World) : Prop :=
  exists os, w = run_ops os World_init.

(** ** Notions used by the statements *)

(** The children of a node that are not [None], in snapshot order. *)
Definition kids (n : node) : list node :=
  match node_children n with
  | Val l => omap (fun child => child) l
  | _ => []
  end.

(** The test [["children" in node and node["children"]]]. *)
Definition has_children (n : node) : bool :=
  match node_children n with
  | Val (_ :: _) => true
  | _ => false
  end.

(** The nodes of a snapshot, depth first, a node before its children. *)
Fixpoint nodes (n : node) : list node :=
  match n with
  | Node r m c =>
      Node r m c ::
      match c with
      | Val l =>
          flat_map (fun ch => match ch with Some x => nodes x | None => [] end) l
      | _ => []
      end
  end.

(** The nodes of a projected tree, in the same order. *)
Fixpoint out_nodes (o : out_node) : list out_node :=
  match o with
  | Out r m e c =>
      Out r m e c ::
      match c with
      | Some l => flat_map out_nodes l
      | None => []
      end
  end.

(** The condition under which the code registers a reference. *)
Definition interactive (n : node) : bool :=
  truthy (fget (node_name n)) && _is_interactive (fget (node_role n)).

(** The projection of a list of nodes on one tab, left to right. *)
Fixpoint convert_list (l : list node) (tab : TabState)
  : list out_node * TabState :=
  match l with
  | [] => ([], tab)
  | n :: rest =>
      let '(o, tab1) := convert_node n tab in
      let '(os, tab2) := convert_list rest tab1 in
      (o :: os, tab2)
  end.

(** The references a projected tree carries, in traversal order. *)
Definition refs_of (o : out_node) : list string :=
  omap o_elementRef (out_nodes o).

(** The number of interactive named nodes of a snapshot. *)
Definition count_interactive (n : node) : nat :=
  List.length (List.filter interactive (nodes n)).

(** The references [e(a+1) .. e(a+k)]. *)
Definition erefs (a k : nat) : list string := map eref (seq (S a) k).

(** The nodes of a list, each with the reference it is due when the
    counter is [c] before the first: the k-th interactive named node of
    the list is due [e(c+k)], a node that is not interactive none. *)
Fixpoint numbered_nodes (c : nat) (l : list node)
  : list (node * option string) :=
  match l with
  | [] => []
  | i :: rest =>
      if interactive i
      then (i, Some (eref (S c))) :: numbered_nodes (S c) rest
      else (i, None) :: numbered_nodes c rest
  end.

(** The output node has the name and the role of the snapshot node, and
    the reference the node is due. *)
Definition node_matches (p : node * option string) (o : out_node) : Prop :=
  o_name o = fget (node_name p.1) /\
  o_role o = fget_default (node_role p.1) "generic" /\
  o_elementRef o = p.2.

(** The interactive role set as the Glossary of the specification lists
    it. *)
Definition glossary_roles : list string :=
  [ "button"; "link"; "textbox"; "checkbox"; "radio"; "combobox";
    "menuitem"; "tab"; "switch"; "searchbox"; "navigation"; "menubar";
    "menu"; "menuitemcheckbox"; "menuitemradio"; "option"; "progressbar";
    "scrollbar"; "slider"; "spinbutton"; "tablist"; "tabpanel"; "heading";
    "article"; "section"; "banner"; "complementary"; "contentinfo"; "form";
    "main"; "region"; "search"; "paragraph"; "listitem"; "img"; "figure" ].

(** Interactive, in the words of the specification: the name is not empty
    and the role equals a role of the Glossary up to letter case. *)
Definition interactive_spec (n : node) : Prop :=
  (exists m, fget (node_name n) = Some m /\ m <> EmptyString) /\
  (exists r g, fget (node_role n) = Some r /\ g ∈ glossary_roles /\
               lower r = lower g).

(** The specification's numbering of a snapshot taken on [tab]: the
    references are [e1 .. eN] and each is a key of the element map
    afterwards. *)
Definition numbered_from_one (n : node) (tab : TabState) : Prop :=
  refs_of (convert_node n tab).1 = erefs 0 (count_interactive n) /\
  Forall (fun r => r ∈ PyDict.keys (element_map (convert_node n tab).2))
         (erefs 0 (count_interactive n)).

(** The specification's rule for the children key: the projected children
    are attached exactly when there is at least one of them. *)
Definition children_attached_when_nonempty (n : node) (tab : TabState)
  : Prop :=
  let projected := (convert_list (kids n) (assign_ref n tab).2).1 in
  o_children (convert_node n tab).1 =
    match projected with
    | [] => None
    | _ :: _ => Some projected
    end.

(** The exception of [_get_tab] for an identifier that is not a key of
    [self.tabs]. *)
Definition tab_not_found (tab_id : string) (w : World) : exn :=
  HTTPException 404
    [Lit "Tab not found: "; Fmt tab_id; Lit ". Available tabs: ";
     FmtList (PyDict.keys (tabs (manager w)))].

(** Every session key resolves to a tab that is in the tab map. *)
Definition sessions_resolve (m : Manager) : Prop :=
  forall session_key tab_id,
    get_active_tab_for_session session_key m = Some tab_id ->
    is_Some (PyDict.get tab_id (tabs m)).

Definition is_cleanup (o : op) : bool :=
  match o with OpCleanup _ _ => true | _ => false end.

(** The registry is as [__init__] leaves it. *)
Definition registry_empty (m : Manager) : Prop := m = Manager_init.

(** ** Concrete snapshots and worlds *)

Definition ok_button : node := Node (Val "button") (Val "OK") Missing.

Definition only_null_child : node := Node (Val "generic") Null (Val [None]).

Definition sample_page : node :=
  Node (Val "WebArea") (Val "Home")
    (Val [ Some (Node (Val "Heading") (Val "Welcome") Missing); None;
           Some (Node (Val "generic") Null
                   (Val [ Some (Node (Val "link") (Val "Docs") (Val []));
                          Some (Node (Val "button") (Val EmptyString) Missing) ]));
           Some ok_button ]).

Definition fresh_tab : TabState := TabState_init "tab-1" 10 "https://example.com".

Definition env_ok : create_env :=
  mkCreateEnv 7 (Returns 1) "tab-1" (Returns 10) (Returns tt) (Returns tt).

Definition env_ok2 : create_env :=
  mkCreateEnv 8 (Returns 2) "tab-2" (Returns 11) (Returns tt) (Returns tt).

Definition env_nav_fails : create_env :=
  mkCreateEnv 7 (Returns 1) "tab-3" (Returns 12) (Raises "NS_ERROR_UNKNOWN_HOST")
              (Returns tt).

(** One tab, created for session [s1]. *)
Definition world_one_tab : World :=
  run_ops [OpCreateTab "alice" "s1" "https://example.com" env_ok] World_init.

(** The same after one snapshot of a page that holds one button. *)
Definition world_after_snapshot : World :=
  run_ops [OpSnapshot "tab-1" "alice" (Returns (Some ok_button))] world_one_tab.

(** The same after a cleanup. *)
Definition world_after_cleanup : World :=
  run_ops [OpCleanup (fun _ => Returns tt) (Returns tt)] world_one_tab.

(** The same after a navigation of the tab that has taken a snapshot. *)
Definition world_after_navigate : World :=
  run_ops [OpNavigate "tab-1" "alice" "https://example.org" (Returns tt)]
          world_after_snapshot.

(** A second cleanup. *)
Definition world_after_two_cleanups : World :=
  run_ops [OpCleanup (fun _ => Raises "closed") (Raises "gone")]
          world_after_cleanup.

(** ** Notions used by the further properties *)

(** The selector [_convert_snapshot] stores for a named node. *)
Definition selector_of (n : node) : string :=
  text_selector (default EmptyString (fget (node_name n))).

(** The interactive named nodes of a snapshot, in traversal order. *)
Definition interactive_nodes (n : node) : list node :=
  List.filter interactive (nodes n).

(** The entries [e(c+1) -> selector of the first node], [e(c+2) -> selector
    of the second], and so on. *)
Fixpoint entries_from (c : nat) (l : list node) : list (string * string) :=
  match l with
  | [] => []
  | i :: rest => (eref (S c), selector_of i) :: entries_from (S c) rest
  end.

(** The keys of the tab's element map are [e1 .. ec], in this order, for
    [c] the reference counter. *)
Definition keys_numbered (tab : TabState) : Prop :=
  PyDict.keys (element_map tab) = erefs 0 (ref_counter tab).

(** The tab an operation is addressed to. *)
Definition op_tab (o : op) : option string :=
  match o with
  | OpSnapshot t _ _ | OpClick t _ _ _ | OpTypeText t _ _ _ _
  | OpNavigate t _ _ _ | OpScreenshot t _ _ => Some t
  | OpCreateTab _ _ _ _ | OpCleanup _ _ => None
  end.

(** Where there is a browser there is the context it was entered from. *)
Definition browser_has_ctx (m : Manager) : Prop :=
  is_Some (browser m) -> is_Some (camoufox_ctx m).

(** The calls of a [create_tab] that finds the browser [b] running. *)
Definition create_tab_calls (b : Browser) (new_url : string)
    (env : create_env) : list call :=
  BrowserNewPage b ::
  match env_new_page env with
  | Raises _ => []
  | Returns pg =>
      PageGoto pg new_url ::
      match env_goto env with
      | Returns _ => []
      | Raises _ => [PageClose pg]
      | Cancelled => []
      end
  | Cancelled => []
  end.

(** ** The request handlers of [main.py]

    The handlers act on the one global manager, which is the manager of
    the world here. What the construction of [SnapshotResponse] makes of
    the tree is decided by the validation of the response model, which is
    not code of this repository: it is supplied by the caller of the
    model, as the answers of the browser are. *)

(** The request bodies of [models.py]. *)
Record CreateTabRequest : Type := mkCreateTabRequest {
  ct_user_id : string;
  ct_session_key : string;
  ct_url : string
}.

Record ClickRequest : Type := mkClickRequest {
  ck_user_id : string;
  ck_element_ref : string
}.

Record TypeTextRequest : Type := mkTypeTextRequest {
  tt_user_id : string;
  tt_element_ref : string;
  tt_text : string
}.

Record NavigateRequest : Type := mkNavigateRequest {
  nv_user_id : string;
  nv_url : string
}.

(** [AccessibilityNode] of [models.py]. *)
Inductive AccessibilityNode : Type :=
| mkAccessibilityNode (role : string) (name : option string)
    (element_ref : option string)
    (children : option (list AccessibilityNode)).

(** What the construction of a response model does: it gives the model or
    raises a validation error, which is an [Exception]. *)
Inductive validated (A : Type) : Type :=
| Valid (a : A)
| Invalid (msg : string).
Arguments Valid {A} a.
Arguments Invalid {A} msg.

Definition construct {A} (v : validated A) : M A :=
  match v with
  | Valid a => ret a
  | Invalid msg => raise (Exception msg)
  end.

(** What the handlers return: [CreateTabResponse(id=, url=)],
    [SnapshotResponse(tree=)], [{"success": True}],
    [{"data": png_base64}], [{"tab_id": tab_id}] and the dictionary of the
    health check. *)
Inductive response : Type :=
| CreateTabResponse (tab_id tab_url : string)
| SnapshotResponse (tree : AccessibilityNode)
| SuccessTrue
| Data (png_base64 : base64)
| TabId (tab_id : string)
| Health (server status version browser_state : string).

(** [try: m  except HTTPException: raise
     except Exception as e:
       raise HTTPException(status_code=500, detail=f"{prefix}{str(e)}")] *)
Definition http_guard {A} (prefix : string) (m : M A) : M A :=
  try_except m
    (fun e =>
       match e with
       | Exception _ => raise (HTTPException 500 [Lit prefix; FmtExn e])
       | _ => raise e
       end).

Module main.

Definition health_check : M response :=
  m <- get_manager ;;
  ret (Health "camoufox-rest-api" "ok" "0.6.2"
              (match browser m with
               | Some _ => "real"
               | None => "not_started"
               end)).

Definition create_tab (request : CreateTabRequest) (env : create_env)
  : M response :=
  http_guard "Failed to create tab: "
    (tab <- create_tab (ct_user_id request) (ct_session_key request)
                       (ct_url request) env ;;
     ret (CreateTabResponse (id tab) (url tab))).

Definition get_snapshot (tab_id user_id : string)
    (snap : outcome (option node))
    (validate : option out_node -> validated AccessibilityNode)
  : M response :=
  http_guard "Failed to get snapshot: "
    (tree <- get_accessibility_tree tab_id user_id snap ;;
     model <- construct (validate tree) ;;
     ret (SnapshotResponse model)).

Definition click_element (tab_id : string) (request : ClickRequest)
    (o : outcome unit) : M response :=
  http_guard "Click failed: "
    (click tab_id (ck_user_id request) (ck_element_ref request) o ;;;
     ret SuccessTrue).

Definition type_text (tab_id : string) (request : TypeTextRequest)
    (o : outcome unit) : M response :=
  http_guard "Type failed: "
    (type_text tab_id (tt_user_id request) (tt_element_ref request)
               (tt_text request) o ;;;
     ret SuccessTrue).

Definition navigate (tab_id : string) (request : NavigateRequest)
    (o : outcome unit) : M response :=
  http_guard "Navigation failed: "
    (navigate tab_id (nv_user_id request) (nv_url request) o ;;;
     ret SuccessTrue).

Definition screenshot (tab_id user_id : string)
    (o : outcome (list Byte.byte)) : M response :=
  http_guard "Screenshot failed: "
    (png_base64 <- screenshot tab_id user_id o ;;
     ret (Data png_base64)).

Definition get_active_tab (session_key : string) : M response :=
  m <- get_manager ;;
  match get_active_tab_for_session session_key m with
  | Some (String c s) => ret (TabId (String c s))
  | _ =>
      raise (HTTPException 404
               [Lit "No active tab found for session: "; Fmt session_key])
  end.

End main.

(** The result is a value, an [HTTPException] whose status is one of
    [statuses], or the cancellation, and this only where [cancelled]
    holds; it is no other exception. *)
Definition handler_result {A} (r : result A) (statuses : list Z)
    (cancelled : Prop) : Prop :=
  match r with
  | Ok _ => True
  | Error (HTTPException s _) => s ∈ statuses
  | Error (Exception _) => False
  | Error CancelledError => cancelled
  end.

(** One of the calls of a [create_tab] is cancelled. *)
Definition env_cancelled (env : create_env) : Prop :=
  env_launch env = Cancelled \/ env_new_page env = Cancelled \/
  env_goto env = Cancelled \/ env_close env = Cancelled.

(** A navigation that is cancelled while the page loads. *)
Definition env_nav_cancelled : create_env :=
  mkCreateEnv 7 (Returns 1) "tab-5" (Returns 14) Cancelled (Returns tt).

(** A launch of the browser that fails. *)
Definition env_launch_fails : create_env :=
  mkCreateEnv 7 (Raises "Executable not found") "tab-4" (Returns 13)
              (Returns tt) (Returns tt).

(** * Properties *)

Ltac monad_unfold :=
  unfold bind, ret, raise, try_except, try_pass, get_manager, put_manager,
    modify, await, store_tab in *.


(** ** Dictionaries *)

Section dict_facts.
Context {V : Type}.
Implicit Types (d : PyDict.dict V) (k : string) (v : V).

Lemma get_set_eq k v d : PyDict.get k (PyDict.set k v d) = Some v.
Proof.
  induction d as [|[k' v'] d IH]; simpl.
  - by rewrite String.eqb_refl.
  - destruct (String.eqb k k') eqn:E; simpl; rewrite E; [done | exact IH].
Qed.

Lemma get_set_ne k k' v d :
  k <> k' -> PyDict.get k' (PyDict.set k v d) = PyDict.get k' d.
Proof.
  intros Hne. induction d as [|[k0 v0] d IH]; simpl.
  - destruct (String.eqb k' k) eqn:E; [|done].
    apply String.eqb_eq in E. congruence.
  - destruct (String.eqb k k0) eqn:E; simpl.
    + apply String.eqb_eq in E. subst k0.
      destruct (String.eqb k' k) eqn:E'; [|done].
      apply String.eqb_eq in E'. congruence.
    + by rewrite IH.
Qed.

Lemma keys_set k v d : k ∈ PyDict.keys (PyDict.set k v d).
Proof.
  induction d as [|[k' v'] d IH]; simpl.
  - apply list_elem_of_here.
  - destruct (String.eqb k k') eqn:E; simpl.
    + apply String.eqb_eq in E. subst. apply list_elem_of_here.
    + by apply list_elem_of_further.
Qed.

Lemma keys_set_mono k k' v d :
  k' ∈ PyDict.keys d -> k' ∈ PyDict.keys (PyDict.set k v d).
Proof.
  induction d as [|[k0 v0] d IH]; simpl; intros Hin.
  - by apply list_elem_of_further.
  - destruct (String.eqb k k0); simpl; [exact Hin|].
    apply elem_of_cons in Hin as [->|Hin].
    + apply list_elem_of_here.
    + apply list_elem_of_further. by apply IH.
Qed.

Lemma get_is_Some_keys k d : is_Some (PyDict.get k d) <-> k ∈ PyDict.keys d.
Proof.
  induction d as [|[k' v'] d IH]; simpl.
  - split; [intros [? ?]; done | intros H; by apply not_elem_of_nil in H].
  - destruct (String.eqb k k') eqn:E.
    + apply String.eqb_eq in E. subst. split; [|by eauto].
      intros _. apply list_elem_of_here.
    + apply String.eqb_neq in E. rewrite IH, elem_of_cons. tauto.
Qed.

Lemma get_None_keys k d : PyDict.get k d = None <-> k ∉ PyDict.keys d.
Proof.
  rewrite <- get_is_Some_keys, eq_None_not_Some. done.
Qed.
End dict_facts.

(** ** The shape of a projection *)

Lemma node_kids_ind (P : node -> Prop) :
  (forall n, Forall P (kids n) -> P n) -> forall n, P n.
Proof.
  intros step. fix IH 1. intros [r m c]. apply step.
  destruct c as [| |l]; [constructor | constructor |].
  unfold kids; simpl. induction l as [|[ch|] l IHl]; simpl.
  - constructor.
  - constructor; [apply IH | exact IHl].
  - exact IHl.
Qed.

Lemma nodes_unfold n : nodes n = n :: flat_map nodes (kids n).
Proof.
  destruct n as [r m c]. simpl. f_equal.
  destruct c as [| |l]; [done | done |].
  unfold kids; simpl. induction l as [|[ch|] l IHl]; simpl; [done | | done].
  by rewrite IHl.
Qed.

Lemma convert_children_list l tab :
  convert_children convert_node l tab
  = convert_list (omap (fun child => child) l) tab.
Proof.
  revert tab. induction l as [|[ch|] l IHl]; intros tab; simpl; [done | | done].
  destruct (convert_node ch tab) as [o tab1]. by rewrite IHl.
Qed.

Lemma convert_node_unfold n tab :
  convert_node n tab =
  (Out (fget_default (node_role n) "generic") (fget (node_name n))
       (assign_ref n tab).1
       (if has_children n
        then Some (convert_list (kids n) (assign_ref n tab).2).1
        else None),
   (convert_list (kids n) (assign_ref n tab).2).2).
Proof.
  destruct n as [r m c].
  unfold kids, has_children. cbn [node_children node_role node_name].
  destruct c as [| |[|c0 l]].
  1-3: simpl; by destruct (assign_ref _ tab).
  rewrite <- convert_children_list. simpl.
  destruct (assign_ref _ tab) as [ref tab1]. simpl.
  destruct c0 as [ch|].
  - destruct (convert_node ch tab1) as [o tab2].
    by destruct (convert_children convert_node l tab2).
  - by destruct (convert_children convert_node l tab1).
Qed.

Lemma out_nodes_convert n tab :
  out_nodes (convert_node n tab).1 =
  (convert_node n tab).1 ::
  flat_map out_nodes (convert_list (kids n) (assign_ref n tab).2).1.
Proof.
  rewrite convert_node_unfold. simpl. f_equal.
  destruct (has_children n) eqn:E; [done|].
  assert (kids n = []) as ->; [|done].
  destruct n as [r m [| |[|c0 l]]]; done.
Qed.

Lemma convert_list_cons n l tab :
  convert_list (n :: l) tab =
  ((convert_node n tab).1 :: (convert_list l (convert_node n tab).2).1,
   (convert_list l (convert_node n tab).2).2).
Proof.
  simpl. destruct (convert_node n tab) as [o tab1]. simpl.
  by destruct (convert_list l tab1).
Qed.

(** ** Which nodes carry a reference *)

Lemma root_ref_iff_interactive n tab :
  is_Some (o_elementRef (convert_node n tab).1) <-> interactive n = true.
Proof.
  rewrite convert_node_unfold. simpl. unfold assign_ref, interactive.
  destruct (truthy _ && _); simpl; split; intros H; try done.
Qed.

Lemma glossary_lowercase : Forall (fun g => lower g = g) glossary_roles.
Proof. repeat constructor. Qed.

Lemma interactive_roles_glossary : interactive_roles = glossary_roles.
Proof. reflexivity. Qed.

Lemma truthy_iff_nonempty (s : option string) :
  truthy s = true <-> exists m, s = Some m /\ m <> EmptyString.
Proof.
  destruct s as [[|c s]|]; simpl; split; try done.
  - intros (m & [= <-] & Hm). done.
  - intros _. by eexists.
  - intros (m & ? & _). done.
Qed.

Lemma is_interactive_iff_glossary (role : option string) :
  _is_interactive role = true <->
  exists r g, role = Some r /\ g ∈ glossary_roles /\ lower r = lower g.
Proof.
  pose proof glossary_lowercase as Hl. rewrite Forall_forall in Hl.
  destruct role as [r|]; simpl.
  - rewrite bool_decide_eq_true, interactive_roles_glossary. split.
    + intros Hin. exists r, (lower r). split; [done|]. split; [done|].
      symmetry. by apply Hl.
    + intros (r' & g & [= <-] & Hg & Heq). rewrite Heq, (Hl g Hg). done.
  - split; [done|]. intros (r & g & ? & _). done.
Qed.

Lemma interactive_iff_spec n : interactive n = true <-> interactive_spec n.
Proof.
  unfold interactive, interactive_spec.
  rewrite andb_true_iff, truthy_iff_nonempty, is_interactive_iff_glossary.
  done.
Qed.

Lemma convert_nodes_Forall2 (R : node -> out_node -> Prop) :
  (forall n tab, R n (convert_node n tab).1) ->
  forall n tab, Forall2 R (nodes n) (out_nodes (convert_node n tab).1).
Proof.
  intros Hroot n. induction n as [n IH] using node_kids_ind. intros tab.
  rewrite nodes_unfold, out_nodes_convert. constructor; [apply Hroot|].
  generalize (assign_ref n tab).2. clear tab.
  induction IH as [|ch l Hch _ IHl]; intros tab; [constructor|].
  rewrite convert_list_cons. simpl. apply Forall2_app; [apply Hch | apply IHl].
Qed.

(** C1. Every node of a projected snapshot carries an element reference
    exactly when the snapshot node it comes from has a non-empty name and
    a role that, letter case apart, is one of the interactive roles; and
    the role set of the code is the list of the Glossary. *)
Theorem element_ref_iff_interactive :
  interactive_roles = glossary_roles /\
  forall n tab,
    Forall2 (fun i o => is_Some (o_elementRef o) <-> interactive_spec i)
            (nodes n) (out_nodes (convert_node n tab).1).
Proof.
  split; [reflexivity|].
  apply convert_nodes_Forall2. intros n tab.
  rewrite <- interactive_iff_spec. apply root_ref_iff_interactive.
Qed.

(** ** The numbering of references *)

Lemma assign_ref_fst n tab :
  (assign_ref n tab).1 =
  if interactive n then Some (eref (S (ref_counter tab))) else None.
Proof. unfold assign_ref, interactive. by destruct (truthy _ && _). Qed.

Lemma assign_ref_counter n tab :
  ref_counter (assign_ref n tab).2 =
  ref_counter tab + (if interactive n then 1 else 0).
Proof.
  unfold assign_ref, interactive. destruct (truthy _ && _); simpl; lia.
Qed.

Lemma assign_ref_keys_mono n tab k :
  k ∈ PyDict.keys (element_map tab) ->
  k ∈ PyDict.keys (element_map (assign_ref n tab).2).
Proof.
  unfold assign_ref. destruct (truthy _ && _); simpl; [|done].
  apply keys_set_mono.
Qed.

Lemma assign_ref_key_present n tab r :
  (assign_ref n tab).1 = Some r ->
  r ∈ PyDict.keys (element_map (assign_ref n tab).2).
Proof.
  unfold assign_ref. destruct (truthy _ && _); simpl; [|done].
  intros [= <-]. apply keys_set.
Qed.

Lemma convert_list_keys_mono l :
  Forall (fun n => forall tab k,
            k ∈ PyDict.keys (element_map tab) ->
            k ∈ PyDict.keys (element_map (convert_node n tab).2)) l ->
  forall tab k,
    k ∈ PyDict.keys (element_map tab) ->
    k ∈ PyDict.keys (element_map (convert_list l tab).2).
Proof.
  induction 1 as [|n l Hn _ IHl]; intros tab k Hk; [done|].
  rewrite convert_list_cons. simpl. by apply IHl, Hn.
Qed.

Lemma convert_keys_mono n tab k :
  k ∈ PyDict.keys (element_map tab) ->
  k ∈ PyDict.keys (element_map (convert_node n tab).2).
Proof.
  revert tab k. induction n as [n IH] using node_kids_ind. intros tab k Hk.
  rewrite convert_node_unfold. simpl.
  by apply convert_list_keys_mono, assign_ref_keys_mono.
Qed.

Lemma refs_of_convert n tab :
  refs_of (convert_node n tab).1 =
  option_list (assign_ref n tab).1 ++
  omap o_elementRef
    (flat_map out_nodes (convert_list (kids n) (assign_ref n tab).2).1).
Proof.
  unfold refs_of. rewrite out_nodes_convert. rewrite convert_node_unfold at 1.
  simpl. by destruct (assign_ref n tab).1.
Qed.

Lemma count_interactive_unfold n :
  count_interactive n =
  (if interactive n then 1 else 0) +
  List.length (List.filter interactive (flat_map nodes (kids n))).
Proof.
  unfold count_interactive. rewrite nodes_unfold. simpl.
  by destruct (interactive n).
Qed.

Lemma erefs_app a k1 k2 : erefs a (k1 + k2) = erefs a k1 ++ erefs (a + k1) k2.
Proof. unfold erefs. by rewrite seq_app, map_app. Qed.

Lemma convert_list_numbering l :
  Forall (fun n => forall tab,
            refs_of (convert_node n tab).1
              = erefs (ref_counter tab) (count_interactive n) /\
            ref_counter (convert_node n tab).2
              = ref_counter tab + count_interactive n) l ->
  forall tab,
    omap o_elementRef (flat_map out_nodes (convert_list l tab).1)
      = erefs (ref_counter tab)
              (List.length (List.filter interactive (flat_map nodes l))) /\
    ref_counter (convert_list l tab).2
      = ref_counter tab
        + List.length (List.filter interactive (flat_map nodes l)).
Proof.
  induction 1 as [|n l Hn _ IHl]; intros tab.
  - simpl. split; [done | lia].
  - rewrite convert_list_cons. simpl.
    destruct (Hn tab) as [Hr Hc].
    destruct (IHl (convert_node n tab).2) as [Hrs Hcs].
    rewrite omap_app, List.filter_app, length_app, erefs_app.
    fold (refs_of (convert_node n tab).1).
    fold (count_interactive n).
    rewrite Hr, Hrs, Hcs, Hc. split; [done | lia].
Qed.

Lemma convert_numbering n tab :
  refs_of (convert_node n tab).1
    = erefs (ref_counter tab) (count_interactive n) /\
  ref_counter (convert_node n tab).2
    = ref_counter tab + count_interactive n.
Proof.
  revert tab. induction n as [n IH] using node_kids_ind. intros tab.
  destruct (convert_list_numbering _ IH (assign_ref n tab).2) as [Hrs Hcs].
  rewrite refs_of_convert, Hrs, count_interactive_unfold, erefs_app.
  rewrite convert_node_unfold. simpl. rewrite Hcs.
  rewrite assign_ref_counter, assign_ref_fst.
  destruct (interactive n); simpl; split; try done; try lia.
Qed.

Lemma convert_list_refs_in_keys l :
  Forall (fun n => forall tab,
            Forall (fun r =>
                      r ∈ PyDict.keys (element_map (convert_node n tab).2))
                   (refs_of (convert_node n tab).1)) l ->
  forall tab,
    Forall (fun r => r ∈ PyDict.keys (element_map (convert_list l tab).2))
           (omap o_elementRef (flat_map out_nodes (convert_list l tab).1)).
Proof.
  induction 1 as [|n l Hn Hl IHl]; intros tab; [constructor|].
  rewrite convert_list_cons. simpl. rewrite omap_app. apply Forall_app. split.
  - eapply Forall_impl; [apply Hn|]. simpl. intros r Hr.
    apply convert_list_keys_mono; [|done].
    apply Forall_forall. intros. by apply convert_keys_mono.
  - apply IHl.
Qed.

Lemma convert_refs_in_keys n tab :
  Forall (fun r => r ∈ PyDict.keys (element_map (convert_node n tab).2))
         (refs_of (convert_node n tab).1).
Proof.
  revert tab. induction n as [n IH] using node_kids_ind. intros tab.
  rewrite refs_of_convert. apply Forall_app. split.
  - destruct (assign_ref n tab).1 as [r|] eqn:E; [|constructor].
    constructor; [|constructor]. rewrite convert_node_unfold. simpl.
    apply convert_list_keys_mono.
    + apply Forall_forall. intros. by apply convert_keys_mono.
    + by apply assign_ref_key_present.
  - rewrite convert_node_unfold. simpl. by apply convert_list_refs_in_keys.
Qed.

Lemma numbered_nodes_app c l1 l2 :
  numbered_nodes c (l1 ++ l2)
  = numbered_nodes c l1
    ++ numbered_nodes (c + List.length (List.filter interactive l1)) l2.
Proof.
  revert c. induction l1 as [|i l1 IH]; intros c; simpl.
  - by rewrite Nat.add_0_r.
  - destruct (interactive i); simpl; rewrite IH; [|done].
    by rewrite <- Nat.add_succ_comm.
Qed.

Lemma convert_list_numbered l :
  Forall (fun n => forall tab,
            Forall2 node_matches
                    (numbered_nodes (ref_counter tab) (nodes n))
                    (out_nodes (convert_node n tab).1)) l ->
  forall tab,
    Forall2 node_matches
            (numbered_nodes (ref_counter tab) (flat_map nodes l))
            (flat_map out_nodes (convert_list l tab).1).
Proof.
  induction 1 as [|n l Hn _ IHl]; intros tab; [constructor|].
  rewrite convert_list_cons. simpl. rewrite numbered_nodes_app.
  apply Forall2_app; [apply Hn|].
  destruct (convert_numbering n tab) as [_ Hc].
  unfold count_interactive in Hc. rewrite <- Hc. apply IHl.
Qed.

Lemma convert_numbered n tab :
  Forall2 node_matches
          (numbered_nodes (ref_counter tab) (nodes n))
          (out_nodes (convert_node n tab).1).
Proof.
  revert tab. induction n as [n IH] using node_kids_ind. intros tab.
  rewrite nodes_unfold, out_nodes_convert.
  pose proof (convert_list_numbered _ IH (assign_ref n tab).2) as Hkids.
  rewrite assign_ref_counter in Hkids.
  assert (node_matches
            (n, if interactive n
                then Some (eref (S (ref_counter tab))) else None)
            (convert_node n tab).1) as Hroot.
  { rewrite convert_node_unfold. unfold node_matches. simpl.
    by rewrite assign_ref_fst. }
  cbn [numbered_nodes]. revert Hkids Hroot.
  destruct (interactive n); intros Hkids Hroot;
    (constructor; [exact Hroot|]).
  - by rewrite Nat.add_1_r in Hkids.
  - by rewrite Nat.add_0_r in Hkids.
Qed.

(** C2, as the code has it. A snapshot with N interactive named nodes,
    projected on a tab whose reference counter is c, emits the references
    e(c+1) .. e(c+N) in depth-first pre-order, children in snapshot order:
    the output nodes are those of the snapshot, one for one in this order
    with their names and roles, and the output node of the k-th
    interactive named node carries e(c+k), the others no reference. The
    counter is c+N afterwards and each emitted reference is a key of the
    tab's element map. *)
Theorem snapshot_refs_continue_numbering n tab :
  refs_of (convert_node n tab).1
    = erefs (ref_counter tab) (count_interactive n) /\
  ref_counter (convert_node n tab).2
    = ref_counter tab + count_interactive n /\
  Forall (fun r => r ∈ PyDict.keys (element_map (convert_node n tab).2))
         (erefs (ref_counter tab) (count_interactive n)) /\
  Forall2 node_matches
          (numbered_nodes (ref_counter tab) (nodes n))
          (out_nodes (convert_node n tab).1).
Proof.
  destruct (convert_numbering n tab) as [Hrefs Hcounter].
  split; [exact Hrefs|]. split; [exact Hcounter|]. split.
  - rewrite <- Hrefs. apply convert_refs_in_keys.
  - apply convert_numbered.
Qed.

(** On a tab that was just created or just navigated the references are
    e1 .. eN. *)
Lemma snapshot_refs_from_one n tab :
  ref_counter tab = 0 -> numbered_from_one n tab.
Proof.
  intros H0. destruct (convert_numbering n tab) as [Hr _].
  pose proof (convert_refs_in_keys n tab) as Hk.
  rewrite Hr, H0 in Hk. rewrite H0 in Hr. by split.
Qed.

(** C2 as stated fails on the second snapshot of a tab: the tab that has
    taken one snapshot of a page with one button numbers the button e2,
    not e1, the next time. *)
Lemma second_snapshot_not_numbered_from_one :
  PyDict.get "tab-1" (tabs (manager world_after_snapshot))
    = Some (convert_node ok_button fresh_tab).2 /\
  refs_of (convert_node ok_button (convert_node ok_button fresh_tab).2).1
    = ["e2"] /\
  ~ numbered_from_one ok_button (convert_node ok_button fresh_tab).2.
Proof.
  split; [reflexivity|]. split; [reflexivity|].
  intros [Hrefs _]. vm_compute in Hrefs. discriminate Hrefs.
Qed.

(** ** The children key *)

Lemma convert_list_pointwise l tab :
  Forall2 (fun child o => exists t, o = (convert_node child t).1)
          l (convert_list l tab).1.
Proof.
  revert tab. induction l as [|n l IHl]; intros tab; [constructor|].
  rewrite convert_list_cons. simpl. constructor; [by eexists | apply IHl].
Qed.

(** C8, as the code has it. The projector recurses into the children
    that are not null, in snapshot order, and attaches the list of their
    projections exactly when the children list of the input node is there
    and not empty, the test being made before the null entries are
    skipped; otherwise the output node has no children key. *)
Theorem children_attached_iff_input_nonempty n tab :
  let projected := (convert_list (kids n) (assign_ref n tab).2).1 in
  o_children (convert_node n tab).1
    = (if has_children n then Some projected else None) /\
  Forall2 (fun child o => exists t, o = (convert_node child t).1)
          (kids n) projected.
Proof.
  simpl. split.
  - by rewrite convert_node_unfold.
  - apply convert_list_pointwise.
Qed.

(** Where no child is null the rule of the specification holds. *)
Lemma children_rule_without_nulls n tab :
  (forall l, node_children n = Val l -> Forall is_Some l) ->
  children_attached_when_nonempty n tab.
Proof.
  intros Hnn. unfold children_attached_when_nonempty.
  rewrite convert_node_unfold. simpl.
  destruct n as [r m [| |[|c0 l]]]; try done.
  specialize (Hnn _ eq_refl). inversion Hnn as [|? ? [ch ->] _]; subst.
  unfold has_children, kids. cbn [node_children].
  change (omap (fun child => child) (Some ch :: l))
    with (ch :: omap (fun child : option node => child) l).
  by rewrite convert_list_cons.
Qed.

(** C8 as stated fails on a node whose children are all null: the list to
    attach is empty, and still the children key is there. *)
Lemma null_children_attach_empty_list :
  ~ children_attached_when_nonempty only_null_child fresh_tab.
Proof. intros H. vm_compute in H. discriminate H. Qed.

(** ** The methods, case by case *)

Lemma _get_tab_eq tab_id user_id w :
  _get_tab tab_id user_id w =
  match PyDict.get tab_id (tabs (manager w)) with
  | Some tab => (Ok tab, w)
  | None =>
      (Error (HTTPException 404
                [Lit "Tab not found: "; Fmt tab_id; Lit ". Available tabs: ";
                 FmtList (PyDict.keys (tabs (manager w)))]), w)
  end.
Proof.
  unfold _get_tab. monad_unfold.
  by destruct (PyDict.get tab_id (tabs (manager w))).
Qed.

Lemma navigate_eq tab_id user_id new_url o w :
  navigate tab_id user_id new_url o w =
  match PyDict.get tab_id (tabs (manager w)) with
  | None => (Error (tab_not_found tab_id w), w)
  | Some tab =>
      let called := calls w ++ [PageGoto (page tab) new_url] in
      match o with
      | Returns _ =>
          (Ok tt,
           mkWorld
             (set_tabs
                (PyDict.set tab_id
                   (mkTab (id tab) (page tab) new_url PyDict.empty 0)
                   (tabs (manager w)))
                (manager w))
             called)
      | Raises msg =>
          (Error (HTTPException 500
                    [Lit "Navigation failed: "; FmtExn (Exception msg)]),
           mkWorld (manager w) called)
      | Cancelled => (Error CancelledError, mkWorld (manager w) called)
      end
  end.
Proof.
  unfold navigate, bind at 1. rewrite _get_tab_eq.
  destruct (PyDict.get tab_id (tabs (manager w))) as [tab|]; [|done].
  monad_unfold. by destruct o.
Qed.

Lemma click_eq tab_id user_id element_ref o w :
  click tab_id user_id element_ref o w =
  match PyDict.get tab_id (tabs (manager w)) with
  | None => (Error (tab_not_found tab_id w), w)
  | Some tab =>
      match PyDict.get element_ref (element_map tab) with
      | Some (String c s) =>
          let called := calls w ++ [PageClick (page tab) (String c s)] in
          match o with
          | Returns _ => (Ok tt, mkWorld (manager w) called)
          | Raises msg =>
              (Error (HTTPException 500
                        [Lit "Click failed: "; FmtExn (Exception msg)]),
               mkWorld (manager w) called)
          | Cancelled => (Error CancelledError, mkWorld (manager w) called)
          end
      | _ =>
          (Error (HTTPException 400
                    [Lit "Unknown element ref: "; Fmt element_ref;
                     Lit ". Available refs: ";
                     FmtList (PyDict.keys (element_map tab))]), w)
      end
  end.
Proof.
  unfold click, bind at 1. rewrite _get_tab_eq.
  destruct (PyDict.get tab_id (tabs (manager w))) as [tab|]; [|done].
  destruct (PyDict.get element_ref (element_map tab)) as [[|c s]|]; try done.
  monad_unfold. by destruct o as [[]| |].
Qed.

Lemma type_text_eq tab_id user_id element_ref text o w :
  type_text tab_id user_id element_ref text o w =
  match PyDict.get tab_id (tabs (manager w)) with
  | None => (Error (tab_not_found tab_id w), w)
  | Some tab =>
      match PyDict.get element_ref (element_map tab) with
      | Some (String c s) =>
          let called := calls w ++ [PageFill (page tab) (String c s) text] in
          match o with
          | Returns _ => (Ok tt, mkWorld (manager w) called)
          | Raises msg =>
              (Error (HTTPException 500
                        [Lit "Type failed: "; FmtExn (Exception msg)]),
               mkWorld (manager w) called)
          | Cancelled => (Error CancelledError, mkWorld (manager w) called)
          end
      | _ =>
          (Error (HTTPException 400
                    [Lit "Unknown element ref: "; Fmt element_ref]), w)
      end
  end.
Proof.
  unfold type_text, bind at 1. rewrite _get_tab_eq.
  destruct (PyDict.get tab_id (tabs (manager w))) as [tab|]; [|done].
  destruct (PyDict.get element_ref (element_map tab)) as [[|c s]|]; try done.
  monad_unfold. by destruct o as [[]| |].
Qed.

Lemma screenshot_manager tab_id user_id o w :
  manager (screenshot tab_id user_id o w).2 = manager w.
Proof.
  unfold screenshot, bind at 1. rewrite _get_tab_eq.
  destruct (PyDict.get tab_id (tabs (manager w))) as [tab|]; [|done].
  monad_unfold. by destruct o.
Qed.

Lemma get_accessibility_tree_eq tab_id user_id snap w :
  get_accessibility_tree tab_id user_id snap w =
  match PyDict.get tab_id (tabs (manager w)) with
  | None => (Error (tab_not_found tab_id w), w)
  | Some tab =>
      let called := calls w ++ [PageSnapshot (page tab)] in
      match snap with
      | Returns (Some n) =>
          (Ok (Some (convert_node n tab).1),
           mkWorld
             (set_tabs
                (PyDict.set tab_id (convert_node n tab).2 (tabs (manager w)))
                (manager w))
             called)
      | Returns None =>
          (Error (HTTPException 500
                    [Lit "Failed to get accessibility tree: ";
                     FmtExn (HTTPException 500
                               [Lit "Failed to get accessibility snapshot"])]),
           mkWorld (manager w) called)
      | Raises msg =>
          (Error (HTTPException 500
                    [Lit "Failed to get accessibility tree: ";
                     FmtExn (Exception msg)]),
           mkWorld (manager w) called)
      | Cancelled => (Error CancelledError, mkWorld (manager w) called)
      end
  end.
Proof.
  unfold get_accessibility_tree, bind at 1. rewrite _get_tab_eq.
  destruct (PyDict.get tab_id (tabs (manager w))) as [tab|]; [|done].
  monad_unfold. destruct snap as [[n|]| |]; try done.
  simpl. by destruct (convert_node n tab).
Qed.

(** What [create_tab] leaves in the two maps. *)
Lemma create_tab_maps user_id session_key new_url env w :
  match create_tab user_id session_key new_url env w with
  | (Ok tab, w') =>
      env_goto env = Returns tt /\
      (exists pg, tab = TabState_init (env_uuid env) pg new_url) /\
      tabs (manager w')
        = PyDict.set (env_uuid env) tab (tabs (manager w)) /\
      session_tabs (manager w')
        = PyDict.set session_key (env_uuid env) (session_tabs (manager w))
  | (Error e, w') =>
      tabs (manager w') = tabs (manager w) /\
      session_tabs (manager w') = session_tabs (manager w)
  end.
Proof.
  destruct w as [[b c t s] cl].
  destruct env as [ctx launch uuid new_page goto close].
  unfold create_tab, _ensure_browser. monad_unfold. simpl.
  destruct b as [b|]; simpl.
  - destruct new_page as [pg| |]; simpl; [|done|done].
    destruct goto as [[]| |]; simpl; [by eauto 6| |done].
    by destruct close.
  - destruct launch as [b| |]; simpl; [|done|done].
    destruct new_page as [pg| |]; simpl; [|done|done].
    destruct goto as [[]| |]; simpl; [by eauto 6| |done].
    by destruct close.
Qed.

Lemma create_tab_goto_raises user_id session_key new_url env w msg :
  env_goto env = Raises msg ->
  exists e w', create_tab user_id session_key new_url env w = (Error e, w').
Proof.
  intros Hgoto.
  pose proof (create_tab_maps user_id session_key new_url env w) as H.
  destruct (create_tab user_id session_key new_url env w) as [[tab|e] w'].
  - destruct H as [H _]. congruence.
  - by eauto.
Qed.

(** [cleanup] *)

Lemma close_all_eq items close w :
  exists called,
    close_all items close w = (Ok tt, mkWorld (manager w) (calls w ++ called)).
Proof.
  revert w. induction items as [|[tab_id tab] items IH]; intros w; simpl.
  - exists []. rewrite app_nil_r. by destruct w.
  - monad_unfold.
    destruct (IH (mkWorld (manager w) (calls w ++ [PageClose (page tab)])))
      as [called Hc].
    exists (PageClose (page tab) :: called).
    destruct (close tab_id); simpl in *; rewrite Hc, <- app_assoc; done.
Qed.

Lemma cleanup_eq close aexit w :
  exists called,
    cleanup close aexit w =
    (Ok tt,
     mkWorld
       (match camoufox_ctx (manager w) with
        | Some _ => mkManager None None PyDict.empty (session_tabs (manager w))
        | None =>
            mkManager (browser (manager w)) None PyDict.empty
                      (session_tabs (manager w))
        end)
       (calls w ++ called)).
Proof.
  unfold cleanup. monad_unfold.
  destruct (close_all_eq (PyDict.items (tabs (manager w))) close w)
    as [called Hc].
  rewrite Hc. simpl. destruct w as [[b [c|] t s] cl]; simpl.
  - exists (called ++ [CamoufoxExit c]). rewrite app_assoc.
    by destruct aexit.
  - by exists called.
Qed.

(** ** Navigation *)

(** C3. After a successful [navigate], whatever the tab was before, the
    tab's URL is the requested URL, its element map is empty and its
    reference counter is 0. *)
Theorem navigate_resets_tab tab_id user_id new_url o w r w' :
  navigate tab_id user_id new_url o w = (Ok r, w') ->
  exists tab',
    PyDict.get tab_id (tabs (manager w')) = Some tab' /\
    url tab' = new_url /\
    element_map tab' = PyDict.empty /\
    ref_counter tab' = 0.
Proof.
  rewrite navigate_eq.
  destruct (PyDict.get tab_id (tabs (manager w))) as [tab|]; [|done].
  destruct o as [[]| |]; simpl; [|done|done]. intros [= <- <-]. simpl.
  eexists. by rewrite get_set_eq.
Qed.

Lemma navigate_resets_tab_witness :
  navigate "tab-1" "alice" "https://example.org" (Returns tt)
           world_after_snapshot = (Ok tt, world_after_navigate) /\
  exists tab',
    PyDict.get "tab-1" (tabs (manager world_after_navigate)) = Some tab' /\
    url tab' = "https://example.org" /\
    element_map tab' = PyDict.empty /\
    ref_counter tab' = 0.
Proof.
  split; [reflexivity|].
  apply (navigate_resets_tab "tab-1" "alice" "https://example.org"
           (Returns tt) world_after_snapshot tt).
  reflexivity.
Defined.

(** A navigation of a known tab returns when the page navigation does. *)
Lemma navigate_returns tab_id user_id new_url w tab :
  PyDict.get tab_id (tabs (manager w)) = Some tab ->
  exists w', navigate tab_id user_id new_url (Returns tt) w = (Ok tt, w').
Proof. intros Hget. rewrite navigate_eq, Hget. by eexists. Qed.

(** ** Unknown element references *)

Lemma click_unknown_ref tab_id user_id element_ref o w tab :
  PyDict.get tab_id (tabs (manager w)) = Some tab ->
  PyDict.get element_ref (element_map tab) = None ->
  click tab_id user_id element_ref o w =
  (Error (HTTPException 400
            [Lit "Unknown element ref: "; Fmt element_ref;
             Lit ". Available refs: ";
             FmtList (PyDict.keys (element_map tab))]), w).
Proof. intros Ht Hr. by rewrite click_eq, Ht, Hr. Qed.

Lemma type_text_unknown_ref tab_id user_id element_ref text o w tab :
  PyDict.get tab_id (tabs (manager w)) = Some tab ->
  PyDict.get element_ref (element_map tab) = None ->
  type_text tab_id user_id element_ref text o w =
  (Error (HTTPException 400 [Lit "Unknown element ref: "; Fmt element_ref]),
   w).
Proof. intros Ht Hr. by rewrite type_text_eq, Ht, Hr. Qed.

(** C4. On a tab whose element map holds the one reference e1, [click]
    and [type_text] of the unknown reference e9 both raise status 400 and
    call no page action; the detail of [click] lists the valid references,
    the detail of [type_text] does not. *)
Theorem type_text_unknown_ref_omits_valid_refs :
  (exists tab,
     PyDict.get "tab-1" (tabs (manager world_after_snapshot)) = Some tab /\
     PyDict.keys (element_map tab) = ["e1"] /\
     PyDict.get "e9" (element_map tab) = None) /\
  click "tab-1" "alice" "e9" (Returns tt) world_after_snapshot =
    (Error (HTTPException 400
              [Lit "Unknown element ref: "; Fmt "e9";
               Lit ". Available refs: "; FmtList ["e1"]]),
     world_after_snapshot) /\
  type_text "tab-1" "alice" "e9" "hello" (Returns tt) world_after_snapshot =
    (Error (HTTPException 400 [Lit "Unknown element ref: "; Fmt "e9"]),
     world_after_snapshot).
Proof.
  split; [|split; reflexivity].
  eexists. split; [reflexivity|]. split; reflexivity.
Qed.

(** ** Sessions *)

Lemma create_tab_active user_id session_key new_url env w tab w' :
  create_tab user_id session_key new_url env w = (Ok tab, w') ->
  id tab = env_uuid env /\
  get_active_tab_for_session session_key (manager w') = Some (id tab) /\
  PyDict.get (id tab) (tabs (manager w')) = Some tab.
Proof.
  intros Hrun.
  pose proof (create_tab_maps user_id session_key new_url env w) as H.
  rewrite Hrun in H. destruct H as (_ & [pg ->] & Ht & Hs).
  unfold get_active_tab_for_session. rewrite Ht, Hs. simpl.
  by rewrite !get_set_eq.
Qed.

(** C7. After a successful [create_tab] for a session key, the lookup of
    the key's active tab returns the identifier of the new tab; after a
    second successful [create_tab] for the same key it returns the
    identifier of the second tab. *)
Theorem create_tab_overwrites_session
    user1 user2 session_key url1 url2 env1 env2 w tab1 w1 tab2 w2 :
  create_tab user1 session_key url1 env1 w = (Ok tab1, w1) ->
  create_tab user2 session_key url2 env2 w1 = (Ok tab2, w2) ->
  get_active_tab_for_session session_key (manager w1) = Some (id tab1) /\
  get_active_tab_for_session session_key (manager w2) = Some (id tab2).
Proof.
  intros H1 H2.
  apply create_tab_active in H1 as (_ & H1 & _).
  apply create_tab_active in H2 as (_ & H2 & _). done.
Qed.

Lemma create_tab_overwrites_session_witness :
  get_active_tab_for_session "s1" (manager world_one_tab) = Some "tab-1" /\
  get_active_tab_for_session "s1"
    (manager (run_op (OpCreateTab "bob" "s1" "https://example.org" env_ok2)
                     world_one_tab)) = Some "tab-2".
Proof.
  apply (create_tab_overwrites_session
           "alice" "bob" "s1" "https://example.com" "https://example.org"
           env_ok env_ok2 World_init
           (TabState_init "tab-1" 10 "https://example.com") world_one_tab
           (TabState_init "tab-2" 11 "https://example.org")
           (run_op (OpCreateTab "bob" "s1" "https://example.org" env_ok2)
                   world_one_tab));
    reflexivity.
Defined.

(** ** The user identifier *)

(** C9. Each operation that takes a [user_id] returns the same result and
    leaves the same state whatever the [user_id] is. *)
Theorem user_id_has_no_effect (user1 user2 : string) :
  (forall session_key url env w,
      create_tab user1 session_key url env w
      = create_tab user2 session_key url env w) /\
  (forall tab_id snap w,
      get_accessibility_tree tab_id user1 snap w
      = get_accessibility_tree tab_id user2 snap w) /\
  (forall tab_id element_ref o w,
      click tab_id user1 element_ref o w
      = click tab_id user2 element_ref o w) /\
  (forall tab_id element_ref text o w,
      type_text tab_id user1 element_ref text o w
      = type_text tab_id user2 element_ref text o w) /\
  (forall tab_id url o w,
      navigate tab_id user1 url o w = navigate tab_id user2 url o w) /\
  (forall tab_id o w,
      screenshot tab_id user1 o w = screenshot tab_id user2 o w).
Proof. repeat split. Qed.

(** ** Failed navigations *)

Lemma navigate_raises tab_id user_id new_url msg w tab :
  PyDict.get tab_id (tabs (manager w)) = Some tab ->
  exists e w',
    navigate tab_id user_id new_url (Raises msg) w = (Error e, w') /\
    manager w' = manager w.
Proof. intros Hget. rewrite navigate_eq, Hget. simpl. by eauto. Qed.

(** C10. When the page navigation raises, [create_tab] raises, registers
    no tab and leaves the session map as it was; and [navigate] raises and
    leaves the tab, with its URL, element map and reference counter, as it
    was. *)
Theorem failed_navigation_changes_nothing msg :
  (forall user_id session_key new_url env w,
      env_goto env = Raises msg ->
      exists e w',
        create_tab user_id session_key new_url env w = (Error e, w') /\
        tabs (manager w') = tabs (manager w) /\
        session_tabs (manager w') = session_tabs (manager w)) /\
  (forall tab_id user_id new_url w tab,
      PyDict.get tab_id (tabs (manager w)) = Some tab ->
      exists e w',
        navigate tab_id user_id new_url (Raises msg) w = (Error e, w') /\
        PyDict.get tab_id (tabs (manager w')) = Some tab /\
        tabs (manager w') = tabs (manager w) /\
        session_tabs (manager w') = session_tabs (manager w)).
Proof.
  split.
  - intros user_id session_key new_url env w Hgoto.
    destruct (create_tab_goto_raises user_id session_key new_url env w msg Hgoto)
      as (e & w' & Hrun).
    pose proof (create_tab_maps user_id session_key new_url env w) as H.
    rewrite Hrun in H. by eauto.
  - intros tab_id user_id new_url w tab Hget.
    destruct (navigate_raises tab_id user_id new_url msg w tab Hget)
      as (e & w' & Hrun & Hm).
    exists e, w'. rewrite Hm. done.
Qed.

Lemma failed_navigation_changes_nothing_witness :
  (exists e w',
      create_tab "alice" "s1" "https://nowhere.invalid" env_nav_fails
                 world_after_snapshot = (Error e, w') /\
      tabs (manager w') = tabs (manager world_after_snapshot) /\
      session_tabs (manager w') = session_tabs (manager world_after_snapshot)) /\
  (exists e w',
      navigate "tab-1" "alice" "https://nowhere.invalid"
               (Raises "NS_ERROR_UNKNOWN_HOST") world_after_snapshot
        = (Error e, w') /\
      PyDict.get "tab-1" (tabs (manager w'))
        = Some (mkTab "tab-1" 10 "https://example.com"
                      [("e1", text_selector "OK")] 1) /\
      tabs (manager w') = tabs (manager world_after_snapshot) /\
      session_tabs (manager w') = session_tabs (manager world_after_snapshot)).
Proof.
  destruct (failed_navigation_changes_nothing "NS_ERROR_UNKNOWN_HOST")
    as [Hcreate Hnavigate].
  split.
  - apply Hcreate. reflexivity.
  - apply Hnavigate. reflexivity.
Defined.

(** ** Session keys and the tab map *)

Lemma get_set_is_Some {V} (k k' : string) (v : V) (d : PyDict.dict V) :
  is_Some (PyDict.get k d) -> is_Some (PyDict.get k (PyDict.set k' v d)).
Proof.
  intros H. destruct (decide (k' = k)) as [->|Hne].
  - rewrite get_set_eq. by eexists.
  - by rewrite get_set_ne.
Qed.

Lemma sessions_resolve_set_tab m tab_id tab :
  sessions_resolve m ->
  sessions_resolve (set_tabs (PyDict.set tab_id tab (tabs m)) m).
Proof.
  intros Hinv k t Hk. simpl. apply get_set_is_Some. by apply (Hinv k).
Qed.

Lemma sessions_resolve_maps m m' :
  tabs m' = tabs m -> session_tabs m' = session_tabs m ->
  sessions_resolve m -> sessions_resolve m'.
Proof.
  intros Ht Hs Hinv k t. unfold get_active_tab_for_session.
  rewrite Ht, Hs. apply Hinv.
Qed.

Lemma create_tab_sessions_resolve user_id session_key new_url env w :
  sessions_resolve (manager w) ->
  sessions_resolve (manager (create_tab user_id session_key new_url env w).2).
Proof.
  intros Hinv.
  pose proof (create_tab_maps user_id session_key new_url env w) as H.
  destruct (create_tab user_id session_key new_url env w) as [[tab|e] w'].
  - destruct H as (_ & _ & Ht & Hs). simpl. intros k t.
    unfold get_active_tab_for_session. rewrite Ht, Hs.
    destruct (decide (session_key = k)) as [->|Hne].
    + rewrite get_set_eq. intros [= <-]. rewrite get_set_eq. by eexists.
    + rewrite get_set_ne by done. intros Hk.
      apply get_set_is_Some. by apply (Hinv k).
  - destruct H as [Ht Hs]. by apply (sessions_resolve_maps (manager w)).
Qed.

Lemma run_op_sessions_resolve o w :
  is_cleanup o = false ->
  sessions_resolve (manager w) ->
  sessions_resolve (manager (run_op o w)).
Proof.
  intros Hop Hinv. destruct o; simpl; try done.
  - by apply create_tab_sessions_resolve.
  - rewrite get_accessibility_tree_eq.
    destruct (PyDict.get tab_id (tabs (manager w))); [|done].
    destruct snap as [[n|]| |]; simpl; try done.
    by apply sessions_resolve_set_tab.
  - rewrite click_eq.
    destruct (PyDict.get tab_id (tabs (manager w))) as [tab|]; [|done].
    destruct (PyDict.get element_ref (element_map tab)) as [[|c s]|];
      try done.
    by destruct o.
  - rewrite type_text_eq.
    destruct (PyDict.get tab_id (tabs (manager w))) as [tab|]; [|done].
    destruct (PyDict.get element_ref (element_map tab)) as [[|c s]|];
      try done.
    by destruct o.
  - rewrite navigate_eq.
    destruct (PyDict.get tab_id (tabs (manager w))); [|done].
    destruct o; simpl; [|done|done].
    by apply sessions_resolve_set_tab.
  - by rewrite screenshot_manager.
Qed.

(** As long as no cleanup runs, every session key resolves to a tab of
    the tab map. *)
Lemma sessions_resolve_without_cleanup os :
  Forall (fun o => is_cleanup o = false) os ->
  sessions_resolve (manager (run_ops os World_init)).
Proof.
  assert (sessions_resolve (manager World_init)) as Hinit.
  { intros k t Hk. discriminate Hk. }
  unfold run_ops. revert Hinit. generalize World_init as w.
  induction os as [|o os IH]; intros w Hinv Hall; simpl; [done|].
  inversion Hall; subst. apply IH; [|done].
  by apply run_op_sessions_resolve.
Qed.

(** C5. After a tab is created for session s1 and the registry is cleaned
    up, a state the operations reach, the session key s1 still resolves to
    the identifier of the tab while the tab map holds no such tab. *)
Theorem cleanup_leaves_dangling_session :
  reachable world_after_cleanup /\
  get_active_tab_for_session "s1" (manager world_after_cleanup)
    = Some "tab-1" /\
  PyDict.get "tab-1" (tabs (manager world_after_cleanup)) = None /\
  ~ sessions_resolve (manager world_after_cleanup).
Proof.
  split; [|split; [reflexivity|split; [reflexivity|]]].
  - exists [OpCreateTab "alice" "s1" "https://example.com" env_ok;
            OpCleanup (fun _ => Returns tt) (Returns tt)].
    reflexivity.
  - intros Hinv. destruct (Hinv "s1" "tab-1" eq_refl) as [tab Htab].
    discriminate Htab.
Qed.

(** ** Cleanup *)

(** [cleanup] never raises; it empties the tab map, forgets the browser
    context, and leaves the session map as it was. *)
Lemma cleanup_returns close aexit w :
  exists w',
    cleanup close aexit w = (Ok tt, w') /\
    tabs (manager w') = PyDict.empty /\
    camoufox_ctx (manager w') = None /\
    session_tabs (manager w') = session_tabs (manager w).
Proof.
  destruct (cleanup_eq close aexit w) as [called ->].
  eexists. split; [done|]. by destruct (camoufox_ctx (manager w)).
Qed.

(** A second [cleanup] does not raise either and leaves the manager as the
    first left it. *)
Lemma cleanup_idempotent close1 aexit1 close2 aexit2 w :
  exists w1 w2,
    cleanup close1 aexit1 w = (Ok tt, w1) /\
    cleanup close2 aexit2 w1 = (Ok tt, w2) /\
    manager w2 = manager w1.
Proof.
  destruct (cleanup_eq close1 aexit1 w) as [called1 H1].
  destruct (cleanup close1 aexit1 w) as [r1 w1]. injection H1 as -> ->.
  destruct (cleanup_eq close2 aexit2
              (mkWorld
                 (match camoufox_ctx (manager w) with
                  | Some _ =>
                      mkManager None None PyDict.empty (session_tabs (manager w))
                  | None =>
                      mkManager (browser (manager w)) None PyDict.empty
                                (session_tabs (manager w))
                  end) (calls w ++ called1))) as [called2 H2].
  eexists _, _. split; [done|]. split; [exact H2|]. simpl.
  by destruct (camoufox_ctx (manager w)).
Qed.

(** C6. Two cleanups in a row after a tab was created for session s1 both
    return and leave the tab map empty, and the second changes nothing;
    but the session map keeps its entry, so the registry is not empty
    after either. *)
Theorem cleanup_keeps_session_map :
  cleanup (fun _ => Returns tt) (Returns tt) world_one_tab
    = (Ok tt, world_after_cleanup) /\
  cleanup (fun _ => Raises "closed") (Raises "gone") world_after_cleanup
    = (Ok tt, world_after_two_cleanups) /\
  tabs (manager world_after_cleanup) = PyDict.empty /\
  manager world_after_two_cleanups = manager world_after_cleanup /\
  session_tabs (manager world_after_cleanup) = [("s1", "tab-1")] /\
  ~ registry_empty (manager world_after_cleanup) /\
  ~ registry_empty (manager world_after_two_cleanups).
Proof.
  repeat split; try reflexivity; intros H; discriminate H.
Qed.

(** * Further properties of the projector *)

Lemma eref_inj a b : eref a = eref b -> a = b.
Proof.
  unfold eref. simpl. intros [= H]. by apply (inj (pretty (A:=nat))).
Qed.

Lemma eref_in_erefs j a k : eref j ∈ erefs a k <-> a < j <= a + k.
Proof.
  unfold erefs. rewrite list_elem_of_fmap. split.
  - intros (i & Heq & Hi). apply eref_inj in Heq as ->.
    apply elem_of_seq in Hi. lia.
  - intros Hj. exists j. split; [done|]. apply elem_of_seq. lia.
Qed.

Lemma set_fresh {V} (k : string) (v : V) (d : PyDict.dict V) :
  k ∉ PyDict.keys d -> PyDict.set k v d = d ++ [(k, v)].
Proof.
  induction d as [|[k' v'] d IH]; simpl; intros Hk; [done|].
  apply not_elem_of_cons in Hk as [Hne Hk].
  destruct (String.eqb k k') eqn:E.
  - apply String.eqb_eq in E. done.
  - by rewrite IH.
Qed.

Lemma entries_from_app c l1 l2 :
  entries_from c (l1 ++ l2)
  = entries_from c l1 ++ entries_from (c + List.length l1) l2.
Proof.
  revert c. induction l1 as [|i l1 IH]; intros c; simpl.
  - by rewrite Nat.add_0_r.
  - rewrite IH. do 3 f_equal. lia.
Qed.

Lemma keys_entries_from c l :
  PyDict.keys (entries_from c l) = erefs c (List.length l).
Proof.
  revert c. induction l as [|i l IH]; intros c; [done|].
  change (eref (S c) :: PyDict.keys (entries_from (S c) l)
          = eref (S c) :: erefs (S c) (List.length l)).
  by rewrite IH.
Qed.

Lemma keys_numbered_extend tab tab' l :
  keys_numbered tab ->
  element_map tab' = element_map tab ++ entries_from (ref_counter tab) l ->
  ref_counter tab' = ref_counter tab + List.length l ->
  keys_numbered tab'.
Proof.
  unfold keys_numbered. intros Hk Hm Hc. rewrite Hm, Hc.
  unfold PyDict.keys in *. rewrite map_app, Hk.
  pose proof (keys_entries_from (ref_counter tab) l) as He.
  unfold PyDict.keys in He. rewrite He.
  by rewrite (erefs_app 0 (ref_counter tab) (List.length l)).
Qed.

Lemma assign_ref_appends n tab :
  keys_numbered tab ->
  element_map (assign_ref n tab).2
  = element_map tab
    ++ entries_from (ref_counter tab) (if interactive n then [n] else []).
Proof.
  intros Hk. unfold assign_ref. fold (interactive n).
  destruct (interactive n); simpl; [|by rewrite app_nil_r].
  apply set_fresh. rewrite Hk, eref_in_erefs. lia.
Qed.

Lemma interactive_nodes_unfold n :
  interactive_nodes n
  = (if interactive n then [n] else [])
    ++ List.filter interactive (flat_map nodes (kids n)).
Proof.
  unfold interactive_nodes. rewrite nodes_unfold. simpl.
  by destruct (interactive n).
Qed.

Lemma count_interactive_nodes n :
  count_interactive n = List.length (interactive_nodes n).
Proof. done. Qed.

Lemma convert_list_counter l tab :
  ref_counter (convert_list l tab).2
  = ref_counter tab
    + List.length (List.filter interactive (flat_map nodes l)).
Proof.
  apply convert_list_numbering. apply Forall_forall.
  intros n _ t. apply convert_numbering.
Qed.

Lemma convert_list_appends l :
  Forall (fun n => forall tab,
            keys_numbered tab ->
            element_map (convert_node n tab).2
            = element_map tab
              ++ entries_from (ref_counter tab) (interactive_nodes n)) l ->
  forall tab,
    keys_numbered tab ->
    element_map (convert_list l tab).2
    = element_map tab
      ++ entries_from (ref_counter tab)
           (List.filter interactive (flat_map nodes l)).
Proof.
  induction 1 as [|n l Hn _ IHl]; intros tab Hk.
  - simpl. by rewrite app_nil_r.
  - rewrite convert_list_cons. simpl.
    assert (keys_numbered (convert_node n tab).2) as Hk'.
    { eapply keys_numbered_extend; [done | by apply Hn |].
      apply convert_numbering. }
    rewrite (IHl _ Hk'), (Hn _ Hk), List.filter_app, entries_from_app.
    fold (interactive_nodes n).
    destruct (convert_numbering n tab) as [_ ->].
    by rewrite <- app_assoc, count_interactive_nodes.
Qed.

Lemma convert_appends n tab :
  keys_numbered tab ->
  element_map (convert_node n tab).2
  = element_map tab ++ entries_from (ref_counter tab) (interactive_nodes n).
Proof.
  revert tab. induction n as [n IH] using node_kids_ind. intros tab Hk.
  rewrite convert_node_unfold. simpl.
  assert (keys_numbered (assign_ref n tab).2) as Hk'.
  { eapply keys_numbered_extend; [done | by apply assign_ref_appends |].
    rewrite assign_ref_counter. by destruct (interactive n). }
  rewrite (convert_list_appends _ IH _ Hk'), (assign_ref_appends _ _ Hk).
  rewrite interactive_nodes_unfold, entries_from_app, assign_ref_counter.
  rewrite <- app_assoc. by destruct (interactive n).
Qed.

(** X1. On a tab whose element map has the keys e1 .. ec, a snapshot
    appends to the map one entry per interactive named node, in traversal
    order: e(c+i) for the i-th such node, with the selector made of its
    name. The earlier entries stay as they are, and the keys are again
    e1 .. e(c+N). *)
Theorem snapshot_appends_entries n tab :
  keys_numbered tab ->
  element_map (convert_node n tab).2
    = element_map tab ++ entries_from (ref_counter tab) (interactive_nodes n)
  /\ keys_numbered (convert_node n tab).2.
Proof.
  intros Hk. pose proof (convert_appends n tab Hk) as Hm.
  split; [exact Hm|].
  eapply keys_numbered_extend; [exact Hk | exact Hm |].
  apply convert_numbering.
Qed.

Lemma snapshot_appends_entries_witness :
  keys_numbered (convert_node ok_button fresh_tab).2 /\
  element_map (convert_node sample_page (convert_node ok_button fresh_tab).2).2
    = [ ("e1", text_selector "OK"); ("e2", text_selector "Welcome");
        ("e3", text_selector "Docs"); ("e4", text_selector "OK") ].
Proof.
  split; [reflexivity|].
  apply (snapshot_appends_entries sample_page
           (convert_node ok_button fresh_tab).2).
  reflexivity.
Defined.

(** X2. The projection keeps the nodes of the snapshot one for one, in
    traversal order: each output node has the name of its input node and
    its role, or the role generic when the input node has no role key. *)
Theorem projection_copies_role_and_name n tab :
  Forall2 (fun i o =>
             o_role o = fget_default (node_role i) "generic" /\
             o_name o = fget (node_name i))
          (nodes n) (out_nodes (convert_node n tab).1).
Proof.
  apply convert_nodes_Forall2. intros i t.
  by rewrite convert_node_unfold.
Qed.

Lemma assign_ref_not_interactive n tab :
  interactive n = false -> assign_ref n tab = (None, tab).
Proof. unfold assign_ref, interactive. by intros ->. Qed.

Lemma convert_list_unchanged l :
  Forall (fun n => interactive_nodes n = [] ->
                   forall tab, (convert_node n tab).2 = tab) l ->
  List.filter interactive (flat_map nodes l) = [] ->
  forall tab, (convert_list l tab).2 = tab.
Proof.
  induction 1 as [|n l Hn _ IHl]; intros Hnil tab; [done|].
  simpl in Hnil. rewrite List.filter_app in Hnil.
  apply app_eq_nil in Hnil as [Hn0 Hl0].
  rewrite convert_list_cons. simpl. rewrite (Hn Hn0). by apply IHl.
Qed.

Lemma convert_unchanged n :
  interactive_nodes n = [] -> forall tab, (convert_node n tab).2 = tab.
Proof.
  induction n as [n IH] using node_kids_ind. intros Hnil tab.
  rewrite interactive_nodes_unfold in Hnil.
  apply app_eq_nil in Hnil as [Hroot Hkids].
  rewrite convert_node_unfold. simpl.
  rewrite assign_ref_not_interactive by (by destruct (interactive n)).
  by apply convert_list_unchanged.
Qed.

(** X3. A snapshot in which no node is both named and of an interactive
    role emits no reference and leaves the tab, its element map and its
    counter included, exactly as it was. *)
Theorem snapshot_without_interactive_nodes n tab :
  interactive_nodes n = [] ->
  refs_of (convert_node n tab).1 = [] /\ (convert_node n tab).2 = tab.
Proof.
  intros Hnil. split; [|by apply convert_unchanged].
  destruct (convert_numbering n tab) as [-> _].
  by rewrite count_interactive_nodes, Hnil.
Qed.

Lemma snapshot_without_interactive_nodes_witness :
  refs_of (convert_node
             (Node (Val "generic") (Val "Footer")
                   (Val [Some (Node (Val "button") Null Missing); None]))
             (convert_node ok_button fresh_tab).2).1 = [] /\
  (convert_node
     (Node (Val "generic") (Val "Footer")
           (Val [Some (Node (Val "button") Null Missing); None]))
     (convert_node ok_button fresh_tab).2).2
  = (convert_node ok_button fresh_tab).2.
Proof.
  apply (snapshot_without_interactive_nodes
           (Node (Val "generic") (Val "Footer")
                 (Val [Some (Node (Val "button") Null Missing); None]))).
  reflexivity.
Defined.

Lemma assign_ref_frame n tab :
  id (assign_ref n tab).2 = id tab /\
  page (assign_ref n tab).2 = page tab /\
  url (assign_ref n tab).2 = url tab.
Proof. unfold assign_ref. by destruct (truthy _ && _). Qed.

Lemma convert_list_frame l :
  Forall (fun n => forall tab,
            id (convert_node n tab).2 = id tab /\
            page (convert_node n tab).2 = page tab /\
            url (convert_node n tab).2 = url tab) l ->
  forall tab,
    id (convert_list l tab).2 = id tab /\
    page (convert_list l tab).2 = page tab /\
    url (convert_list l tab).2 = url tab.
Proof.
  induction 1 as [|n l Hn _ IHl]; intros tab; [done|].
  rewrite convert_list_cons. simpl.
  destruct (IHl (convert_node n tab).2) as (-> & -> & ->). apply Hn.
Qed.

Lemma convert_frame n tab :
  id (convert_node n tab).2 = id tab /\
  page (convert_node n tab).2 = page tab /\
  url (convert_node n tab).2 = url tab.
Proof.
  revert tab. induction n as [n IH] using node_kids_ind. intros tab.
  rewrite convert_node_unfold. simpl.
  destruct (convert_list_frame _ IH (assign_ref n tab).2) as (-> & -> & ->).
  apply assign_ref_frame.
Qed.

(** X4. A snapshot touches nothing of the tab but its element map and its
    counter: the identifier, the page and the URL stay, the counter does
    not decrease, and every reference that resolved before resolves
    after. *)
Theorem snapshot_keeps_tab_and_references n tab :
  id (convert_node n tab).2 = id tab /\
  page (convert_node n tab).2 = page tab /\
  url (convert_node n tab).2 = url tab /\
  ref_counter tab <= ref_counter (convert_node n tab).2 /\
  forall r,
    is_Some (PyDict.get r (element_map tab)) ->
    is_Some (PyDict.get r (element_map (convert_node n tab).2)).
Proof.
  destruct (convert_frame n tab) as (Hid & Hpage & Hurl).
  split; [done|]. split; [done|]. split; [done|]. split.
  - destruct (convert_numbering n tab) as [_ ->]. lia.
  - intros r. rewrite !get_is_Some_keys. apply convert_keys_mono.
Qed.

Lemma snapshot_keeps_tab_and_references_witness :
  is_Some (PyDict.get "e1"
             (element_map
                (convert_node sample_page
                   (convert_node ok_button fresh_tab).2).2)).
Proof.
  apply (snapshot_keeps_tab_and_references sample_page
           (convert_node ok_button fresh_tab).2).
  by eexists.
Defined.

(** * Further properties of the registry *)

Lemma get_set_inv {V} (k k' : string) (v t : V) (d : PyDict.dict V) :
  PyDict.get k' (PyDict.set k v d) = Some t ->
  (k' = k /\ t = v) \/ (k' <> k /\ PyDict.get k' d = Some t).
Proof.
  destruct (decide (k = k')) as [->|Hne].
  - rewrite get_set_eq. intros [= ->]. by left.
  - rewrite get_set_ne by done. intros H. right. split; [congruence|done].
Qed.

Lemma screenshot_eq tab_id user_id o w :
  screenshot tab_id user_id o w =
  match PyDict.get tab_id (tabs (manager w)) with
  | None => (Error (tab_not_found tab_id w), w)
  | Some tab =>
      let called := calls w ++ [PageScreenshot (page tab)] in
      match o with
      | Returns raw => (Ok (b64encode raw), mkWorld (manager w) called)
      | Raises msg =>
          (Error (HTTPException 500
                    [Lit "Screenshot failed: "; FmtExn (Exception msg)]),
           mkWorld (manager w) called)
      | Cancelled => (Error CancelledError, mkWorld (manager w) called)
      end
  end.
Proof.
  unfold screenshot, bind at 1. rewrite _get_tab_eq.
  destruct (PyDict.get tab_id (tabs (manager w))) as [tab|]; [|done].
  monad_unfold. by destruct o.
Qed.

(** What an operation other than [create_tab] and [cleanup] does to the
    manager: nothing, or it replaces the tab it is addressed to. *)
Lemma run_op_manager o w tab_id :
  op_tab o = Some tab_id ->
  manager (run_op o w) = manager w \/
  exists tab tab',
    PyDict.get tab_id (tabs (manager w)) = Some tab /\
    manager (run_op o w)
      = set_tabs (PyDict.set tab_id tab' (tabs (manager w))) (manager w) /\
    ((exists n, tab' = (convert_node n tab).2) \/
     (exists new_url,
        tab' = mkTab (id tab) (page tab) new_url PyDict.empty 0)).
Proof.
  destruct o as [| t u snap | t u r o | t u r x o | t u new_url o | t u o |];
    simpl; try done; intros [= ->].
  - rewrite get_accessibility_tree_eq.
    destruct (PyDict.get tab_id (tabs (manager w))) as [tab|]; [|by left].
    destruct snap as [[n|]| |]; simpl; [|by left|by left|by left].
    right. exists tab, (convert_node n tab).2. by eauto.
  - left. rewrite click_eq.
    destruct (PyDict.get tab_id (tabs (manager w))) as [tab|]; [|done].
    destruct (PyDict.get r (element_map tab)) as [[|c s]|]; try done.
    by destruct o.
  - left. rewrite type_text_eq.
    destruct (PyDict.get tab_id (tabs (manager w))) as [tab|]; [|done].
    destruct (PyDict.get r (element_map tab)) as [[|c s]|]; try done.
    by destruct o.
  - rewrite navigate_eq.
    destruct (PyDict.get tab_id (tabs (manager w))) as [tab|]; [|by left].
    destruct o; simpl; [|by left|by left].
    right. exists tab, (mkTab (id tab) (page tab) new_url PyDict.empty 0).
    by eauto.
  - left. apply screenshot_manager.
Qed.

Lemma run_op_tabs (P : string -> TabState -> Prop) :
  (forall k pg u, P k (TabState_init k pg u)) ->
  (forall k t n, P k t -> P k (convert_node n t).2) ->
  (forall k t u, P k t -> P k (mkTab (id t) (page t) u PyDict.empty 0)) ->
  forall o w,
    (forall k t, PyDict.get k (tabs (manager w)) = Some t -> P k t) ->
    forall k t, PyDict.get k (tabs (manager (run_op o w))) = Some t -> P k t.
Proof.
  intros Hinit Hsnap Hnav o w Hw k t.
  destruct (op_tab o) as [tab_id|] eqn:Hop.
  - destruct (run_op_manager o w tab_id Hop)
      as [->|(tab & tab' & Htab & -> & Hcase)]; [by apply Hw|]. simpl.
    intros [[-> ->]|[_ Hk]]%get_set_inv; [|by apply Hw].
    destruct Hcase as [[n ->]|[new_url ->]].
    + by apply Hsnap, Hw.
    + by apply Hnav, Hw.
  - destruct o as [u sk new_url env| | | | | |close aexit]; try done; simpl.
    + pose proof (create_tab_maps u sk new_url env w) as H.
      destruct (create_tab u sk new_url env w) as [[tab|e] w']; simpl.
      * destruct H as (_ & [pg ->] & -> & _).
        intros [[-> ->]|[_ Hk]]%get_set_inv; [apply Hinit | by apply Hw].
      * destruct H as [-> _]. apply Hw.
    + destruct (cleanup_eq close aexit w) as [called ->]. simpl.
      by destruct (camoufox_ctx (manager w)).
Qed.

Lemma reachable_tabs_ind (P : string -> TabState -> Prop) :
  (forall k pg u, P k (TabState_init k pg u)) ->
  (forall k t n, P k t -> P k (convert_node n t).2) ->
  (forall k t u, P k t -> P k (mkTab (id t) (page t) u PyDict.empty 0)) ->
  forall w, reachable w ->
  forall k t, PyDict.get k (tabs (manager w)) = Some t -> P k t.
Proof.
  intros Hinit Hsnap Hnav w [os ->]. unfold run_ops.
  assert (forall k t,
             PyDict.get k (tabs (manager World_init)) = Some t -> P k t)
    as Hw by done.
  revert Hw. generalize World_init as w.
  induction os as [|o os IH]; intros w Hw; simpl; [done|].
  apply IH. by apply run_op_tabs.
Qed.

(** X5. In every state the operations reach, a tab is stored under its
    own identifier and the keys of its element map are e1 .. ec, in this
    order, for c its reference counter. *)
Theorem reachable_tabs_well_formed w tab_id tab :
  reachable w ->
  PyDict.get tab_id (tabs (manager w)) = Some tab ->
  id tab = tab_id /\ keys_numbered tab.
Proof.
  intros Hw. revert tab_id tab.
  apply (reachable_tabs_ind (fun k t => id t = k /\ keys_numbered t));
    [| | |done].
  - done.
  - intros k t n [Hid Hk]. split.
    + destruct (convert_frame n t) as [-> _]. done.
    + eapply keys_numbered_extend;
        [done | by apply convert_appends | apply convert_numbering].
  - intros k t u [Hid _]. by split.
Qed.

Lemma reachable_tabs_well_formed_witness :
  id (convert_node ok_button fresh_tab).2 = "tab-1" /\
  keys_numbered (convert_node ok_button fresh_tab).2.
Proof.
  apply (reachable_tabs_well_formed world_after_snapshot).
  - exists [OpCreateTab "alice" "s1" "https://example.com" env_ok;
            OpSnapshot "tab-1" "alice" (Returns (Some ok_button))].
    reflexivity.
  - reflexivity.
Defined.

(** ** A snapshot followed by an action *)

Lemma get_app {V} (k : string) (d1 d2 : PyDict.dict V) :
  PyDict.get k (d1 ++ d2) =
  match PyDict.get k d1 with Some v => Some v | None => PyDict.get k d2 end.
Proof.
  induction d1 as [|[k' v'] d1 IH]; simpl; [done|].
  by destruct (String.eqb k k').
Qed.

Lemma get_entries_from l : forall c j i,
  l !! j = Some i ->
  PyDict.get (eref (S (c + j))) (entries_from c l) = Some (selector_of i).
Proof.
  induction l as [|i0 l IH]; intros c j i Hj; [done|].
  destruct j as [|j]; simpl in Hj.
  - injection Hj as ->. cbn [entries_from PyDict.get].
    by rewrite Nat.add_0_r, String.eqb_refl.
  - cbn [entries_from PyDict.get].
    destruct (String.eqb (eref (S (c + S j))) (eref (S c))) eqn:E.
    + apply String.eqb_eq, eref_inj in E. lia.
    + replace (S (c + S j)) with (S (S c + j)) by lia. by apply IH.
Qed.

Lemma get_after_snapshot n tab j i :
  keys_numbered tab ->
  interactive_nodes n !! j = Some i ->
  PyDict.get (eref (S (ref_counter tab + j)))
             (element_map (convert_node n tab).2) = Some (selector_of i).
Proof.
  intros Hk Hj. rewrite (convert_appends n tab Hk), get_app.
  assert (PyDict.get (eref (S (ref_counter tab + j))) (element_map tab) = None)
    as ->.
  { apply get_None_keys. rewrite Hk, eref_in_erefs. lia. }
  by apply get_entries_from.
Qed.

Lemma reachable_keys_numbered w tab_id tab :
  reachable w ->
  PyDict.get tab_id (tabs (manager w)) = Some tab ->
  keys_numbered tab.
Proof.
  intros Hw. revert tab_id tab.
  apply (reachable_tabs_ind (fun _ t => keys_numbered t)); try done.
  intros k t n Hk.
  eapply keys_numbered_extend;
    [done | by apply convert_appends | apply convert_numbering].
Qed.

(** X6. In a state the operations reach, after a snapshot of a tab whose
    counter was c, a click on the reference e(c+j+1) calls [page.click]
    once, on the page of the tab, with the selector made of the name of
    the j-th interactive named node of the snapshot (counting from 0), and
    returns; [type_text] calls [page.fill] in the same way. Neither changes
    the registry. *)
Theorem snapshot_then_action_resolves
    w tab_id tab user1 user2 n j i text :
  reachable w ->
  PyDict.get tab_id (tabs (manager w)) = Some tab ->
  interactive_nodes n !! j = Some i ->
  let w' := (get_accessibility_tree tab_id user1 (Returns (Some n)) w).2 in
  let element_ref := eref (S (ref_counter tab + j)) in
  click tab_id user2 element_ref (Returns tt) w'
    = (Ok tt,
       mkWorld (manager w')
               (calls w' ++ [PageClick (page tab) (selector_of i)])) /\
  type_text tab_id user2 element_ref text (Returns tt) w'
    = (Ok tt,
       mkWorld (manager w')
               (calls w' ++ [PageFill (page tab) (selector_of i) text])).
Proof.
  intros Hw Htab Hj. simpl.
  pose proof (reachable_keys_numbered w tab_id tab Hw Htab) as Hk.
  pose proof (get_after_snapshot n tab j i Hk Hj) as Hget.
  destruct (convert_frame n tab) as (_ & Hpage & _).
  rewrite get_accessibility_tree_eq, Htab. cbn [snd].
  rewrite click_eq, type_text_eq. cbn [manager tabs set_tabs].
  rewrite get_set_eq, Hget, Hpage. done.
Qed.

Lemma snapshot_then_action_resolves_witness :
  click "tab-1" "bob" "e3" (Returns tt)
        (get_accessibility_tree "tab-1" "alice" (Returns (Some sample_page))
           world_after_snapshot).2
  = (Ok tt,
     mkWorld
       (manager
          (get_accessibility_tree "tab-1" "alice" (Returns (Some sample_page))
             world_after_snapshot).2)
       (calls
          (get_accessibility_tree "tab-1" "alice" (Returns (Some sample_page))
             world_after_snapshot).2
        ++ [PageClick 10 (text_selector "Docs")])).
Proof.
  apply (snapshot_then_action_resolves world_after_snapshot "tab-1"
           (convert_node ok_button fresh_tab).2 "alice" "bob" sample_page 1
           (Node (Val "link") (Val "Docs") (Val [])) "hello").
  - exists [OpCreateTab "alice" "s1" "https://example.com" env_ok;
            OpSnapshot "tab-1" "alice" (Returns (Some ok_button))].
    reflexivity.
  - reflexivity.
  - reflexivity.
Defined.

(** X7. After a successful [navigate] no reference of the tab resolves:
    [click] and [type_text] raise status 400 for every reference and call
    no page action, and the detail of [click] lists no valid reference. *)
Theorem navigate_invalidates_references
    tab_id user1 new_url o w r w' user2 element_ref text o' :
  navigate tab_id user1 new_url o w = (Ok r, w') ->
  click tab_id user2 element_ref o' w'
    = (Error (HTTPException 400
                [Lit "Unknown element ref: "; Fmt element_ref;
                 Lit ". Available refs: "; FmtList []]), w') /\
  type_text tab_id user2 element_ref text o' w'
    = (Error (HTTPException 400
                [Lit "Unknown element ref: "; Fmt element_ref]), w').
Proof.
  rewrite navigate_eq.
  destruct (PyDict.get tab_id (tabs (manager w))) as [tab|]; [|done].
  destruct o as [[]| |]; simpl; [|done|done]. intros [= <- <-].
  rewrite click_eq, type_text_eq. cbn [manager tabs set_tabs].
  by rewrite get_set_eq.
Qed.

Lemma navigate_invalidates_references_witness :
  click "tab-1" "bob" "e1" (Returns tt) world_after_navigate
    = (Error (HTTPException 400
                [Lit "Unknown element ref: "; Fmt "e1";
                 Lit ". Available refs: "; FmtList []]),
       world_after_navigate) /\
  type_text "tab-1" "bob" "e1" "hello" (Returns tt) world_after_navigate
    = (Error (HTTPException 400 [Lit "Unknown element ref: "; Fmt "e1"]),
       world_after_navigate).
Proof.
  apply (navigate_invalidates_references "tab-1" "alice"
           "https://example.org" (Returns tt) world_after_snapshot tt).
  reflexivity.
Defined.

(** ** Unknown tabs, and tabs that are not addressed *)

(** X8. With an identifier that is not a key of the tab map, each of the
    five tab operations raises status 404 with a detail that lists the
    identifiers of the tab map, calls nothing of the browser and changes
    nothing. *)
Theorem unknown_tab_is_not_found tab_id user_id w :
  PyDict.get tab_id (tabs (manager w)) = None ->
  let not_found : exn :=
    HTTPException 404
      [Lit "Tab not found: "; Fmt tab_id; Lit ". Available tabs: ";
       FmtList (PyDict.keys (tabs (manager w)))] in
  (forall snap,
      get_accessibility_tree tab_id user_id snap w = (Error not_found, w)) /\
  (forall element_ref o,
      click tab_id user_id element_ref o w = (Error not_found, w)) /\
  (forall element_ref text o,
      type_text tab_id user_id element_ref text o w = (Error not_found, w)) /\
  (forall new_url o,
      navigate tab_id user_id new_url o w = (Error not_found, w)) /\
  (forall o, screenshot tab_id user_id o w = (Error not_found, w)).
Proof.
  intros Hget. simpl. repeat split; intros.
  - by rewrite get_accessibility_tree_eq, Hget.
  - by rewrite click_eq, Hget.
  - by rewrite type_text_eq, Hget.
  - by rewrite navigate_eq, Hget.
  - by rewrite screenshot_eq, Hget.
Qed.

Lemma unknown_tab_is_not_found_witness :
  navigate "tab-9" "alice" "https://example.org" (Returns tt)
           world_after_snapshot
  = (Error (HTTPException 404
              [Lit "Tab not found: "; Fmt "tab-9"; Lit ". Available tabs: ";
               FmtList ["tab-1"]]),
     world_after_snapshot).
Proof.
  apply (unknown_tab_is_not_found "tab-9" "alice" world_after_snapshot).
  reflexivity.
Defined.

(** X9. A snapshot, click, type, navigation or screenshot addressed to one
    tab leaves every other tab, the session map, the browser and its
    context as they were. *)
Theorem tab_operations_are_isolated o w tab_id other :
  op_tab o = Some tab_id ->
  other <> tab_id ->
  PyDict.get other (tabs (manager (run_op o w)))
    = PyDict.get other (tabs (manager w)) /\
  session_tabs (manager (run_op o w)) = session_tabs (manager w) /\
  browser (manager (run_op o w)) = browser (manager w) /\
  camoufox_ctx (manager (run_op o w)) = camoufox_ctx (manager w).
Proof.
  intros Hop Hne.
  destruct (run_op_manager o w tab_id Hop)
    as [->|(tab & tab' & _ & -> & _)]; [done|]. simpl.
  by rewrite get_set_ne.
Qed.

Lemma tab_operations_are_isolated_witness :
  PyDict.get "tab-1"
    (tabs (manager
             (run_op (OpNavigate "tab-2" "bob" "https://example.net"
                                 (Returns tt))
                (run_op (OpCreateTab "bob" "s2" "https://example.org" env_ok2)
                        world_after_snapshot))))
  = Some (convert_node ok_button fresh_tab).2.
Proof.
  refine (eq_trans
            (proj1 (tab_operations_are_isolated
                      (OpNavigate "tab-2" "bob" "https://example.net"
                                  (Returns tt))
                      (run_op (OpCreateTab "bob" "s2" "https://example.org"
                                           env_ok2)
                              world_after_snapshot)
                      "tab-2" "tab-1" eq_refl _)) _).
  - discriminate.
  - reflexivity.
Defined.

(** ** The browser handle *)

(** X10. A [create_tab] that finds a browser running does not launch
    another: it asks that browser for one page, navigates it, and closes
    it again exactly when the navigation raised an exception. When the
    navigation is cancelled the page is not closed: the cancellation
    passes the [except Exception] clause. The browser and its context
    stay as they were. *)
Theorem create_tab_reuses_browser user_id session_key new_url env w b :
  browser (manager w) = Some b ->
  calls (create_tab user_id session_key new_url env w).2
    = calls w ++ create_tab_calls b new_url env /\
  browser (manager (create_tab user_id session_key new_url env w).2) = Some b /\
  camoufox_ctx (manager (create_tab user_id session_key new_url env w).2)
    = camoufox_ctx (manager w).
Proof.
  destruct w as [[b0 c t s] cl].
  destruct env as [ctx launch uuid new_page goto close].
  simpl. intros ->.
  unfold create_tab, _ensure_browser, create_tab_calls. monad_unfold. simpl.
  destruct new_page as [pg| |]; simpl; [|done|done].
  destruct goto as [[]| |]; simpl.
  - by rewrite <- !app_assoc.
  - destruct close; simpl; by rewrite <- !app_assoc.
  - by rewrite <- !app_assoc.
Qed.

Lemma create_tab_reuses_browser_witness :
  calls (create_tab "alice" "s1" "https://nowhere.invalid" env_nav_fails
                    world_one_tab).2
    = calls world_one_tab
      ++ [BrowserNewPage 1; PageGoto 12 "https://nowhere.invalid";
          PageClose 12] /\
  calls (create_tab "alice" "s1" "https://slow.invalid" env_nav_cancelled
                    world_one_tab).2
    = calls world_one_tab
      ++ [BrowserNewPage 1; PageGoto 14 "https://slow.invalid"].
Proof.
  split.
  - apply (create_tab_reuses_browser "alice" "s1" "https://nowhere.invalid"
             env_nav_fails world_one_tab 1).
    reflexivity.
  - apply (create_tab_reuses_browser "alice" "s1" "https://slow.invalid"
             env_nav_cancelled world_one_tab 1).
    reflexivity.
Defined.

(** X11. When the navigation of a new page raises an exception, whether
    the browser was running or is launched by this very call,
    [create_tab] raises status 500 with the message of the navigation in
    its detail if the page then closes; if closing the page raises or is
    cancelled, it is that exception the caller gets. *)
Theorem create_tab_navigation_error
    user_id session_key new_url env w pg msg :
  (browser (manager w) = None -> exists b, env_launch env = Returns b) ->
  env_new_page env = Returns pg ->
  env_goto env = Raises msg ->
  (create_tab user_id session_key new_url env w).1 =
  Error (match env_close env with
         | Returns _ =>
             HTTPException 500
               [Lit "Navigation failed: "; FmtExn (Exception msg)]
         | Raises msg' => Exception msg'
         | Cancelled => CancelledError
         end).
Proof.
  destruct w as [[b0 c t s] cl].
  destruct env as [ctx launch uuid new_page goto close].
  simpl. intros Hlaunch -> ->.
  unfold create_tab, _ensure_browser. monad_unfold. simpl.
  destruct b0 as [b0|]; simpl.
  - by destruct close.
  - destruct (Hlaunch eq_refl) as [b ->]. simpl. by destruct close.
Qed.

Lemma create_tab_navigation_error_witness :
  (create_tab "alice" "s1" "https://nowhere.invalid" env_nav_fails
              World_init).1
    = Error (HTTPException 500
               [Lit "Navigation failed: ";
                FmtExn (Exception "NS_ERROR_UNKNOWN_HOST")]) /\
  (create_tab "alice" "s1" "https://nowhere.invalid" env_nav_fails
              world_one_tab).1
    = Error (HTTPException 500
               [Lit "Navigation failed: ";
                FmtExn (Exception "NS_ERROR_UNKNOWN_HOST")]).
Proof.
  split.
  - apply (create_tab_navigation_error "alice" "s1" "https://nowhere.invalid"
             env_nav_fails World_init 12 "NS_ERROR_UNKNOWN_HOST").
    + intros _. by exists 1.
    + reflexivity.
    + reflexivity.
  - apply (create_tab_navigation_error "alice" "s1" "https://nowhere.invalid"
             env_nav_fails world_one_tab 12 "NS_ERROR_UNKNOWN_HOST").
    + intros H. discriminate H.
    + reflexivity.
    + reflexivity.
Defined.

Lemma create_tab_browser_has_ctx user_id session_key new_url env w :
  browser_has_ctx (manager w) ->
  browser_has_ctx (manager (create_tab user_id session_key new_url env w).2).
Proof.
  destruct w as [[b c t s] cl].
  destruct env as [ctx launch uuid new_page goto close].
  unfold browser_has_ctx, create_tab, _ensure_browser. monad_unfold. simpl.
  intros Hinv. destruct b as [b|]; simpl.
  - destruct new_page as [pg| |]; simpl; [|done|done].
    destruct goto as [[]| |]; simpl; [done| |done]. by destruct close.
  - destruct launch as [b| |]; simpl; [|by intros [? ?]|by intros [? ?]].
    destruct new_page as [pg| |]; simpl; [|by eauto|by eauto].
    destruct goto as [[]| |]; simpl; [by eauto| |by eauto].
    destruct close; by eauto.
Qed.

Lemma run_op_browser_has_ctx o w :
  browser_has_ctx (manager w) -> browser_has_ctx (manager (run_op o w)).
Proof.
  intros Hinv. destruct (op_tab o) as [tab_id|] eqn:Hop.
  - by destruct (run_op_manager o w tab_id Hop)
      as [->|(tab & tab' & _ & -> & _)].
  - destruct o as [u sk new_url env| | | | | |close aexit]; try done; simpl.
    + by apply create_tab_browser_has_ctx.
    + destruct (cleanup_eq close aexit w) as [called ->]. simpl.
      destruct (camoufox_ctx (manager w)) eqn:E; [by intros [? ?]|].
      unfold browser_has_ctx in *. simpl. rewrite E in Hinv. done.
Qed.

Lemma reachable_browser_has_ctx w :
  reachable w -> browser_has_ctx (manager w).
Proof.
  intros [os ->]. unfold run_ops.
  assert (browser_has_ctx (manager World_init)) as Hw by (by intros [? ?]).
  revert Hw. generalize World_init as w.
  induction os as [|o os IH]; intros w Hw; simpl; [done|].
  by apply IH, run_op_browser_has_ctx.
Qed.

(** X12. In every state the operations reach, a browser handle comes
    with the context it was entered from; so a [cleanup] leaves no
    browser, no context and no tab, whatever the calls to close them
    do. *)
Theorem cleanup_releases_browser w close aexit :
  reachable w ->
  browser_has_ctx (manager w) /\
  browser (manager (cleanup close aexit w).2) = None /\
  camoufox_ctx (manager (cleanup close aexit w).2) = None /\
  tabs (manager (cleanup close aexit w).2) = PyDict.empty.
Proof.
  intros Hw. pose proof (reachable_browser_has_ctx w Hw) as Hinv.
  split; [done|].
  destruct (cleanup_eq close aexit w) as [called ->]. simpl.
  destruct (camoufox_ctx (manager w)) eqn:E; [done|]. simpl.
  split; [|done]. unfold browser_has_ctx in Hinv. rewrite E in Hinv.
  destruct (browser (manager w)); [|done].
  by destruct Hinv as [? ?]; [eexists|].
Qed.

Lemma cleanup_releases_browser_witness :
  browser (manager (cleanup (fun _ => Raises "closed") (Raises "gone")
                            world_after_snapshot).2) = None.
Proof.
  apply (cleanup_releases_browser world_after_snapshot
           (fun _ => Raises "closed") (Raises "gone")).
  exists [OpCreateTab "alice" "s1" "https://example.com" env_ok;
          OpSnapshot "tab-1" "alice" (Returns (Some ok_button))].
  reflexivity.
Defined.

(** ** The session map *)

(** X13. The active tab of a session key changes only by a [create_tab]
    for this very key: every other operation, a [create_tab] for another
    key and a [cleanup] included, leaves the lookup as it was. *)
Theorem session_changes_only_by_its_create_tab o w session_key :
  (forall user_id new_url env,
      o <> OpCreateTab user_id session_key new_url env) ->
  get_active_tab_for_session session_key (manager (run_op o w))
  = get_active_tab_for_session session_key (manager w).
Proof.
  intros Hother. unfold get_active_tab_for_session.
  destruct (op_tab o) as [tab_id|] eqn:Hop.
  - by destruct (run_op_manager o w tab_id Hop)
      as [->|(tab & tab' & _ & -> & _)].
  - destruct o as [u sk new_url env| | | | | |close aexit]; try done; simpl.
    + pose proof (create_tab_maps u sk new_url env w) as H.
      destruct (create_tab u sk new_url env w) as [[tab|e] w']; simpl.
      * destruct H as (_ & _ & _ & ->). apply get_set_ne.
        intros ->. by apply (Hother u new_url env).
      * by destruct H as [_ ->].
    + destruct (cleanup_eq close aexit w) as [called ->]. simpl.
      by destruct (camoufox_ctx (manager w)).
Qed.

Lemma session_changes_only_by_its_create_tab_witness :
  get_active_tab_for_session "s1"
    (manager (run_op (OpCreateTab "bob" "s2" "https://example.org" env_ok2)
                     world_one_tab))
  = Some "tab-1".
Proof.
  refine (eq_trans
            (session_changes_only_by_its_create_tab
               (OpCreateTab "bob" "s2" "https://example.org" env_ok2)
               world_one_tab "s1" _) _).
  - intros user_id new_url env H. discriminate H.
  - reflexivity.
Defined.

(** * Properties of the request handlers *)

Ltac status_listed :=
  repeat first [apply list_elem_of_here | apply list_elem_of_further].

Lemma http_guard_eq {A} (prefix : string) (m : M A) w :
  http_guard prefix m w =
  match m w with
  | (Ok a, w') => (Ok a, w')
  | (Error (HTTPException s d), w') => (Error (HTTPException s d), w')
  | (Error (Exception msg), w') =>
      (Error (HTTPException 500 [Lit prefix; FmtExn (Exception msg)]), w')
  | (Error CancelledError, w') => (Error CancelledError, w')
  end.
Proof.
  unfold http_guard, try_except, raise.
  by destruct (m w) as [[a|[s d|msg|]] w'].
Qed.

Lemma main_create_tab_eq request env w :
  main.create_tab request env w =
  match create_tab (ct_user_id request) (ct_session_key request)
                   (ct_url request) env w with
  | (Ok tab, w') => (Ok (CreateTabResponse (id tab) (url tab)), w')
  | (Error (HTTPException s d), w') => (Error (HTTPException s d), w')
  | (Error (Exception msg), w') =>
      (Error (HTTPException 500
                [Lit "Failed to create tab: "; FmtExn (Exception msg)]), w')
  | (Error CancelledError, w') => (Error CancelledError, w')
  end.
Proof.
  unfold main.create_tab. rewrite http_guard_eq. unfold bind, ret.
  by destruct (create_tab _ _ _ env w) as [[tab|[s d|msg|]] w'].
Qed.

Lemma create_tab_error_kinds user_id session_key new_url env w :
  match (create_tab user_id session_key new_url env w).1 with
  | Error (HTTPException s d) => s = 500%Z
  | Error CancelledError => env_cancelled env
  | _ => True
  end.
Proof.
  destruct w as [[b c t s] cl].
  destruct env as [ctx launch uuid new_page goto close].
  unfold create_tab, _ensure_browser, env_cancelled. monad_unfold. simpl.
  destruct b as [b|]; simpl.
  - destruct new_page as [pg| |]; simpl; [|done|by eauto].
    destruct goto as [[]| |]; simpl; [done| |by eauto].
    destruct close; simpl; by eauto 6.
  - destruct launch as [b| |]; simpl; [|done|by eauto].
    destruct new_page as [pg| |]; simpl; [|done|by eauto].
    destruct goto as [[]| |]; simpl; [done| |by eauto].
    destruct close; simpl; by eauto 6.
Qed.

Lemma main_get_snapshot_eq tab_id user_id snap validate w :
  main.get_snapshot tab_id user_id snap validate w =
  match get_accessibility_tree tab_id user_id snap w with
  | (Ok tree, w') =>
      match validate tree with
      | Valid model => (Ok (SnapshotResponse model), w')
      | Invalid msg =>
          (Error (HTTPException 500
                    [Lit "Failed to get snapshot: "; FmtExn (Exception msg)]),
           w')
      end
  | (Error (HTTPException s d), w') => (Error (HTTPException s d), w')
  | (Error (Exception msg), w') =>
      (Error (HTTPException 500
                [Lit "Failed to get snapshot: "; FmtExn (Exception msg)]), w')
  | (Error CancelledError, w') => (Error CancelledError, w')
  end.
Proof.
  unfold main.get_snapshot. rewrite http_guard_eq.
  unfold bind, ret, construct, raise.
  destruct (get_accessibility_tree tab_id user_id snap w)
    as [[tree|[s d|msg|]] w']; try done.
  by destruct (validate tree).
Qed.



(** X15. When the launch of the browser raises, the handler of the tab
    creation raises status 500 with the message of the launch; no tab and
    no session is registered and the manager still has no browser, so the
    next creation launches again. *)
Theorem failed_launch_is_reported request env w msg :
  browser (manager w) = None ->
  env_launch env = Raises msg ->
  exists w',
    main.create_tab request env w
      = (Error (HTTPException 500
                  [Lit "Failed to create tab: "; FmtExn (Exception msg)]),
         w') /\
    calls w' = calls w ++ [CamoufoxEnter (env_ctx env)] /\
    browser (manager w') = None /\
    tabs (manager w') = tabs (manager w) /\
    session_tabs (manager w') = session_tabs (manager w).
Proof.
  destruct w as [[b c t s] cl].
  destruct env as [ctx launch uuid new_page goto close].
  simpl. intros -> ->. rewrite main_create_tab_eq.
  unfold create_tab, _ensure_browser. monad_unfold. simpl.
  by eexists.
Qed.

Lemma failed_launch_is_reported_witness :
  exists w',
    main.create_tab
      (mkCreateTabRequest "alice" "s1" "https://example.com")
      env_launch_fails World_init
      = (Error (HTTPException 500
                  [Lit "Failed to create tab: ";
                   FmtExn (Exception "Executable not found")]),
         w') /\
    calls w' = calls World_init ++ [CamoufoxEnter 7] /\
    browser (manager w') = None /\
    tabs (manager w') = tabs (manager World_init) /\
    session_tabs (manager w') = session_tabs (manager World_init).
Proof.
  apply (failed_launch_is_reported
           (mkCreateTabRequest "alice" "s1" "https://example.com")
           env_launch_fails World_init "Executable not found");
    reflexivity.
Defined.

(** X16. The health check reports the browser as real after a tab was
    created through the handler, and as not started after a cleanup of
    any state the operations reach. *)
Theorem health_check_follows_browser w :
  (forall request env r w',
      main.create_tab request env w = (Ok r, w') ->
      main.health_check w'
        = (Ok (Health "camoufox-rest-api" "ok" "0.6.2" "real"), w')) /\
  (reachable w ->
   forall close aexit,
     main.health_check (cleanup close aexit w).2
       = (Ok (Health "camoufox-rest-api" "ok" "0.6.2" "not_started"),
          (cleanup close aexit w).2)).
Proof.
  split.
  - intros request env r w'. rewrite main_create_tab_eq.
    destruct w as [[b c t s] cl].
    destruct env as [ctx launch uuid new_page goto close].
    unfold create_tab, _ensure_browser, main.health_check.
    monad_unfold. simpl.
    destruct b as [b|]; simpl.
    + destruct new_page as [pg| |]; simpl; [|done|done].
      destruct goto as [[]| |]; simpl; [by intros [= <- <-]| |done].
      by destruct close.
    + destruct launch as [b| |]; simpl; [|done|done].
      destruct new_page as [pg| |]; simpl; [|done|done].
      destruct goto as [[]| |]; simpl; [by intros [= <- <-]| |done].
      by destruct close.
  - intros Hw close aexit.
    pose proof (reachable_browser_has_ctx w Hw) as Hinv.
    destruct (cleanup_eq close aexit w) as [called ->].
    unfold main.health_check. monad_unfold. simpl.
    destruct (camoufox_ctx (manager w)) eqn:E; [done|]. simpl.
    unfold browser_has_ctx in Hinv. rewrite E in Hinv.
    destruct (browser (manager w)); [|done].
    by destruct Hinv as [? ?]; [eexists|].
Qed.

Lemma health_check_follows_browser_witness :
  main.health_check world_one_tab
    = (Ok (Health "camoufox-rest-api" "ok" "0.6.2" "real"), world_one_tab) /\
  main.health_check
    (cleanup (fun _ => Returns tt) (Returns tt) world_one_tab).2
    = (Ok (Health "camoufox-rest-api" "ok" "0.6.2" "not_started"),
       (cleanup (fun _ => Returns tt) (Returns tt) world_one_tab).2).
Proof.
  split.
  - apply (proj1 (health_check_follows_browser World_init)
             (mkCreateTabRequest "alice" "s1" "https://example.com") env_ok
             (CreateTabResponse "tab-1" "https://example.com")).
    reflexivity.
  - apply (proj2 (health_check_follows_browser world_one_tab)).
    exists [OpCreateTab "alice" "s1" "https://example.com" env_ok].
    reflexivity.
Defined.

(** X17. After the handler created a tab for a session key, with an
    identifier that is not the empty string, the handler of the active
    tab answers with the identifier and the URL the creation answered;
    for a session key that is not in the session map it raises status
    404. *)
Theorem active_tab_after_creation request env w tab_id tab_url w' :
  main.create_tab request env w = (Ok (CreateTabResponse tab_id tab_url), w') ->
  env_uuid env <> EmptyString ->
  tab_id = env_uuid env /\
  tab_url = ct_url request /\
  main.get_active_tab (ct_session_key request) w' = (Ok (TabId tab_id), w') /\
  forall other,
    PyDict.get other (session_tabs (manager w')) = None ->
    main.get_active_tab other w'
      = (Error (HTTPException 404
                  [Lit "No active tab found for session: "; Fmt other]), w').
Proof.
  rewrite main_create_tab_eq. intros Hrun Hne.
  pose proof (create_tab_maps (ct_user_id request) (ct_session_key request)
                (ct_url request) env w) as H.
  destruct (create_tab _ _ _ env w) as [[tab|[s d|msg|]] w0]; try done.
  injection Hrun as <- <- <-.
  destruct H as (_ & [pg ->] & _ & Hs). simpl.
  split; [done|]. split; [done|]. split.
  - unfold main.get_active_tab, get_active_tab_for_session. monad_unfold.
    rewrite Hs, get_set_eq. by destruct (env_uuid env).
  - intros other Hother.
    unfold main.get_active_tab, get_active_tab_for_session. monad_unfold.
    by rewrite Hother.
Qed.

Lemma active_tab_after_creation_witness :
  main.get_active_tab "s1" world_one_tab = (Ok (TabId "tab-1"), world_one_tab).
Proof.
  apply (active_tab_after_creation
           (mkCreateTabRequest "alice" "s1" "https://example.com") env_ok
           World_init "tab-1" "https://example.com" world_one_tab).
  - reflexivity.
  - discriminate.
Defined.

(** * Snapshots and cleanup through the methods *)

(** X18. A snapshot that the page does not deliver changes nothing of the
    registry and raises status 500: with the message of the page when the
    page raised, and, when the page answered with no snapshot, with the
    exception raised for that inside the method as the cause. *)
Theorem failed_snapshot_changes_nothing tab_id user_id w tab :
  PyDict.get tab_id (tabs (manager w)) = Some tab ->
  get_accessibility_tree tab_id user_id (Returns None) w
    = (Error (HTTPException 500
                [Lit "Failed to get accessibility tree: ";
                 FmtExn (HTTPException 500
                           [Lit "Failed to get accessibility snapshot"])]),
       mkWorld (manager w) (calls w ++ [PageSnapshot (page tab)])) /\
  forall msg,
    get_accessibility_tree tab_id user_id (Raises msg) w
      = (Error (HTTPException 500
                  [Lit "Failed to get accessibility tree: ";
                   FmtExn (Exception msg)]),
         mkWorld (manager w) (calls w ++ [PageSnapshot (page tab)])).
Proof.
  intros Hget. split; [|intros msg];
    by rewrite get_accessibility_tree_eq, Hget.
Qed.

Lemma failed_snapshot_changes_nothing_witness :
  get_accessibility_tree "tab-1" "alice" (Returns None) world_after_snapshot
  = (Error (HTTPException 500
              [Lit "Failed to get accessibility tree: ";
               FmtExn (HTTPException 500
                         [Lit "Failed to get accessibility snapshot"])]),
     mkWorld (manager world_after_snapshot)
             (calls world_after_snapshot ++ [PageSnapshot 10])).
Proof.
  apply (failed_snapshot_changes_nothing "tab-1" "alice" world_after_snapshot
           (convert_node ok_button fresh_tab).2).
  reflexivity.
Defined.

Lemma snapshot_of_reset_tab tab_id user_id n w tab :
  PyDict.get tab_id (tabs (manager w)) = Some tab ->
  ref_counter tab = 0 ->
  exists w',
    get_accessibility_tree tab_id user_id (Returns (Some n)) w
      = (Ok (Some (convert_node n tab).1), w') /\
    refs_of (convert_node n tab).1 = erefs 0 (count_interactive n).
Proof.
  intros Hget H0. rewrite get_accessibility_tree_eq, Hget. simpl.
  eexists. split; [done|].
  destruct (convert_numbering n tab) as [-> _]. by rewrite H0.
Qed.

(** X19. The first snapshot of a tab after its creation, and the first
    after a successful navigation, returns a tree whose references are
    e1 .. eN in traversal order, N being the number of interactive named
    nodes of the snapshot. *)
Theorem first_snapshot_numbers_from_one w user_id n :
  (forall user1 session_key new_url env tab w',
      create_tab user1 session_key new_url env w = (Ok tab, w') ->
      exists tree w'',
        get_accessibility_tree (id tab) user_id (Returns (Some n)) w'
          = (Ok (Some tree), w'') /\
        refs_of tree = erefs 0 (count_interactive n)) /\
  (forall tab_id user1 new_url o r w',
      navigate tab_id user1 new_url o w = (Ok r, w') ->
      exists tree w'',
        get_accessibility_tree tab_id user_id (Returns (Some n)) w'
          = (Ok (Some tree), w'') /\
        refs_of tree = erefs 0 (count_interactive n)).
Proof.
  split.
  - intros user1 session_key new_url env tab w' Hrun.
    pose proof (create_tab_maps user1 session_key new_url env w) as H.
    rewrite Hrun in H. destruct H as (_ & [pg ->] & Ht & _).
    destruct (snapshot_of_reset_tab (env_uuid env) user_id n w'
                (TabState_init (env_uuid env) pg new_url))
      as (w'' & Hsnap & Hrefs); [|done|by eauto].
    rewrite Ht. apply get_set_eq.
  - intros tab_id user1 new_url o r w'. rewrite navigate_eq.
    destruct (PyDict.get tab_id (tabs (manager w))) as [tab|]; [|done].
    destruct o as [[]| |]; simpl; [|done|done]. intros [= <- <-].
    destruct (snapshot_of_reset_tab tab_id user_id n
                (mkWorld
                   (set_tabs
                      (PyDict.set tab_id
                         (mkTab (id tab) (page tab) new_url PyDict.empty 0)
                         (tabs (manager w)))
                      (manager w))
                   (calls w ++ [PageGoto (page tab) new_url]))
                (mkTab (id tab) (page tab) new_url PyDict.empty 0))
      as (w'' & Hsnap & Hrefs); [|done|by eauto].
    simpl. apply get_set_eq.
Qed.

Lemma first_snapshot_numbers_from_one_witness :
  exists tree w'',
    get_accessibility_tree "tab-1" "bob" (Returns (Some sample_page))
                           world_after_navigate
      = (Ok (Some tree), w'') /\
    refs_of tree = erefs 0 (count_interactive sample_page).
Proof.
  apply (proj2 (first_snapshot_numbers_from_one world_after_snapshot "bob"
                  sample_page)
           "tab-1" "alice" "https://example.org" (Returns tt) tt).
  reflexivity.
Defined.

Lemma close_all_calls items close w :
  close_all items close w
  = (Ok tt,
     mkWorld (manager w)
             (calls w ++ map (fun item => PageClose (page item.2)) items)).
Proof.
  revert w. induction items as [|[tab_id tab] items IH]; intros w; simpl.
  - rewrite app_nil_r. by destruct w.
  - monad_unfold.
    destruct (close tab_id); simpl in *; rewrite IH; simpl;
      by rewrite <- app_assoc.
Qed.

(** X20. [cleanup] tries to close the page of every tab of the tab map,
    in the order of the map and whether or not an earlier close raised,
    and after them leaves the browser context if there is one; it makes
    no other call. *)
Theorem cleanup_closes_every_page close aexit w :
  calls (cleanup close aexit w).2
  = calls w
    ++ map (fun item => PageClose (page item.2)) (tabs (manager w))
    ++ match camoufox_ctx (manager w) with
       | Some ctx => [CamoufoxExit ctx]
       | None => []
       end.
Proof.
  unfold cleanup. monad_unfold. rewrite close_all_calls. simpl.
  destruct w as [[b [c|] t s] cl]; simpl.
  - destruct aexit; simpl; by rewrite <- app_assoc.
  - by rewrite app_nil_r.
Qed.
